(** * Attendance ledger: a shallow embedding of [contracts/attendance.sol]

    The contract is a keyed-record store with two gates ([onlyAdmin] and
    [systemActive]).  Storage is a record of finite maps; a function body is
    a computation in a small state/revert/log monad; a transaction either
    commits the storage its body produced or rolls back to the storage it
    started from. *)

From stdpp Require Import gmap strings list fin_maps.
From Stdlib Require Import ZArith Lia.

Local Open Scope Z_scope.

(** ** Value types *)

(** [address] is a 160-bit unsigned integer and [uint256] a 256-bit one;
    both are carried as [Z] together with their range predicates. *)
Definition address_ok (a : Z) : Prop := 0 <= a < 2 ^ 160.
Definition uint256_ok (n : Z) : Prop := 0 <= n < 2 ^ 256.
Definition max_uint256 : Z := 2 ^ 256 - 1.

(** The time unit suffix of the source: [1 days] is [days 1]. *)
Definition days (n : Z) : Z := n * 86400.

Record Student := mkStudent {
  matricNumber : string;
  name : string;
  isRegistered : bool;
  registrationDate : Z
}.

Record AttendanceRecord := mkAttendanceRecord {
  timestamp : Z;
  isPresent : bool;
  recMatricNumber : string
}.

(** What a mapping yields at a key that was never written. *)
Definition zeroStudent : Student := mkStudent "" "" false 0.
Definition zeroRecord : AttendanceRecord := mkAttendanceRecord 0 false "".

Inductive Event :=
  | AttendanceMarked (user : Z) (matric : string) (date : Z) (ts : Z)
  | UserRegistered (user : Z) (matric : string) (nm : string)
  | SystemStateChanged (isActive : bool).

(** ** Storage *)

Record Storage := mkStorage {
  admin : Z;
  isSystemActive : bool;
  students : gmap Z Student;
  matricToAddress : gmap string Z;
  attendanceRecords : gmap Z (gmap Z AttendanceRecord);
  attendanceCount : gmap Z Z;
  registeredUsers : list Z;
  count : Z
}.

(** Reads of the four mappings, with the zero value at an unwritten key. *)
Definition studentAt (s : Storage) (a : Z) : Student :=
  default zeroStudent (students s !! a).
Definition addressOfMatric (s : Storage) (m : string) : Z :=
  default 0 (matricToAddress s !! m).
Definition recordsOf (s : Storage) (a : Z) : gmap Z AttendanceRecord :=
  default ∅ (attendanceRecords s !! a).
Definition recordAt (s : Storage) (a : Z) (date : Z) : AttendanceRecord :=
  default zeroRecord (recordsOf s a !! date).
Definition attendanceCountAt (s : Storage) (a : Z) : Z :=
  default 0 (attendanceCount s !! a).

(** Field writes. *)
Definition set_isSystemActive (b : bool) (s : Storage) : Storage :=
  mkStorage (admin s) b (students s) (matricToAddress s)
            (attendanceRecords s) (attendanceCount s) (registeredUsers s) (count s).
Definition set_student (a : Z) (st : Student) (s : Storage) : Storage :=
  mkStorage (admin s) (isSystemActive s) (<[a := st]> (students s)) (matricToAddress s)
            (attendanceRecords s) (attendanceCount s) (registeredUsers s) (count s).
Definition set_matricToAddress (m : string) (a : Z) (s : Storage) : Storage :=
  mkStorage (admin s) (isSystemActive s) (students s) (<[m := a]> (matricToAddress s))
            (attendanceRecords s) (attendanceCount s) (registeredUsers s) (count s).
Definition set_record (a date : Z) (r : AttendanceRecord) (s : Storage) : Storage :=
  mkStorage (admin s) (isSystemActive s) (students s) (matricToAddress s)
            (<[a := <[date := r]> (recordsOf s a)]> (attendanceRecords s))
            (attendanceCount s) (registeredUsers s) (count s).
Definition set_attendanceCount (a n : Z) (s : Storage) : Storage :=
  mkStorage (admin s) (isSystemActive s) (students s) (matricToAddress s)
            (attendanceRecords s) (<[a := n]> (attendanceCount s)) (registeredUsers s) (count s).
Definition push_registeredUsers (a : Z) (s : Storage) : Storage :=
  mkStorage (admin s) (isSystemActive s) (students s) (matricToAddress s)
            (attendanceRecords s) (attendanceCount s) (registeredUsers s ++ [a]) (count s).
Definition set_count (n : Z) (s : Storage) : Storage :=
  mkStorage (admin s) (isSystemActive s) (students s) (matricToAddress s)
            (attendanceRecords s) (attendanceCount s) (registeredUsers s) n.

(** ** The execution monad *)

(** A failed [require] reverts with its message; checked arithmetic that
    overflows panics with code 0x11. *)
Inductive failure :=
  | Revert (reason : string)
  | Panic (code : Z).

Definition M (A : Type) : Type := Storage -> failure + (A * Storage * list Event).

Definition ret {A} (a : A) : M A := fun s => inr (a, s, []).
Definition bind {A B} (m : M A) (f : A -> M B) : M B :=
  fun s =>
    match m s with
    | inl e => inl e
    | inr (a, s1, l1) =>
        match f a s1 with
        | inl e => inl e
        | inr (b, s2, l2) => inr (b, s2, l1 ++ l2)
        end
    end.

Notation "'let*' x ':=' m 'in' k" := (bind m (fun x => k))
  (at level 10, x name, m at level 100, k at level 200).
Notation "m ';;;' k" := (bind m (fun _ => k))
  (at level 100, k at level 200, right associativity).

Definition read : M Storage := fun s => inr (s, s, []).
Definition write (f : Storage -> Storage) : M unit := fun s => inr (tt, f s, []).
Definition emit (e : Event) : M unit := fun s => inr (tt, s, [e]).
Definition fail {A} (e : failure) : M A := fun _ => inl e.
Definition require (b : bool) (reason : string) : M unit :=
  if b then ret tt else fail (Revert reason).

(** [x++] on a [uint256] under checked arithmetic. *)
Definition checked_inc (n : Z) : M Z :=
  if n <? max_uint256 then ret (n + 1) else fail (Panic 17).

(** The ambient values a call sees: [msg.sender] and [block.timestamp]. *)
Record Env := mkEnv {
  msg_sender : Z;
  block_timestamp : Z
}.

Definition env_ok (e : Env) : Prop :=
  address_ok (msg_sender e) /\ uint256_ok (block_timestamp e).

(** ** Modifiers *)

Definition onlyAdmin (e : Env) (body : M unit) : M unit :=
  let* s := read in
  require (msg_sender e =? admin s) "Only admin can call this function" ;;;
  body.

Definition systemActive (body : M unit) : M unit :=
  let* s := read in
  require (isSystemActive s) "Attendance system is not active" ;;;
  body.

(** ** Constructor and state-changing functions *)

Definition constructor (e : Env) : Storage :=
  mkStorage (msg_sender e) true ∅ ∅ ∅ ∅ [] 0.

Definition registerUser (e : Env) (user : Z) (matric nm : string) : M unit :=
  onlyAdmin e (
    require (negb (user =? 0)) "Invalid address" ;;;
    require (0 <? Z.of_nat (String.length matric)) "Invalid matric number" ;;;
    require (0 <? Z.of_nat (String.length nm)) "Invalid name" ;;;
    let* s := read in
    require (negb (isRegistered (studentAt s user))) "User already registered" ;;;
    require (addressOfMatric s matric =? 0) "Matric number already registered" ;;;
    write (set_student user (mkStudent matric nm true (block_timestamp e))) ;;;
    write (set_matricToAddress matric user) ;;;
    write (push_registeredUsers user) ;;;
    let* s := read in
    let* c := checked_inc (count s) in
    write (set_count c) ;;;
    emit (UserRegistered user matric nm)).

Definition markAttendance (e : Env) : M unit :=
  systemActive (
    let* s := read in
    require (isRegistered (studentAt s (msg_sender e))) "Student not registered" ;;;
    let today := block_timestamp e / days 1 in
    require (negb (isPresent (recordAt s (msg_sender e) today)))
            "Attendance already marked for today" ;;;
    write (set_record (msg_sender e) today
             (mkAttendanceRecord (block_timestamp e) true
                                 (matricNumber (studentAt s (msg_sender e))))) ;;;
    let* s := read in
    let* c := checked_inc (attendanceCountAt s (msg_sender e)) in
    write (set_attendanceCount (msg_sender e) c) ;;;
    let* s := read in
    emit (AttendanceMarked (msg_sender e) (matricNumber (studentAt s (msg_sender e)))
                           today (block_timestamp e))).

Definition toggleSystem (e : Env) : M unit :=
  onlyAdmin e (
    write (fun s => set_isSystemActive (negb (isSystemActive s)) s) ;;;
    let* s := read in
    emit (SystemStateChanged (isSystemActive s))).

(** ** View functions *)

Definition verifyAttendance (s : Storage) (user date : Z) : bool :=
  isPresent (recordAt s user date).

Definition getAttendanceCount (s : Storage) (user : Z) : Z :=
  attendanceCountAt s user.

Definition getAttendanceRecord (s : Storage) (user date : Z) : Z * bool :=
  let record := recordAt s user date in
  (timestamp record, isPresent record).

Definition getRegisteredUsers (s : Storage) : list Z := registeredUsers s.

Definition getStudentByAddress (s : Storage) (studentAddress : Z)
  : string * string * bool * Z :=
  let student := studentAt s studentAddress in
  (matricNumber student, name student, isRegistered student, registrationDate student).

Definition getStudentAddressByMatric (s : Storage) (matric : string) : failure + Z :=
  let studentAddress := addressOfMatric s matric in
  if negb (studentAddress =? 0) then inr studentAddress
  else inl (Revert "Student not found").

Definition getStudentByMatric (s : Storage) (matric : string)
  : failure + (Z * string * bool * Z) :=
  let studentAddress := addressOfMatric s matric in
  if negb (studentAddress =? 0) then
    let student := studentAt s studentAddress in
    inr (studentAddress, name student, isRegistered student, registrationDate student)
  else inl (Revert "Student not found").

(** ** Transactions and reachable storage *)

Inductive Call :=
  | RegisterUser (user : Z) (matric : string) (nm : string)
  | MarkAttendance
  | ToggleSystem.

Definition call_ok (c : Call) : Prop :=
  match c with
  | RegisterUser user _ _ => address_ok user
  | _ => True
  end.

Definition dispatch (e : Env) (c : Call) : M unit :=
  match c with
  | RegisterUser user matric nm => registerUser e user matric nm
  | MarkAttendance => markAttendance e
  | ToggleSystem => toggleSystem e
  end.

Inductive Receipt :=
  | Success (logs : list Event)
  | Reverted (f : failure).

(** A transaction commits the storage of a body that returns and keeps the
    storage it started from when the body fails. *)
Definition transact (e : Env) (c : Call) (s : Storage) : Storage * Receipt :=
  match dispatch e c s with
  | inl f => (s, Reverted f)
  | inr (_, s', logs) => (s', Success logs)
  end.

Inductive reachable : Storage -> Prop :=
  | reachable_deploy e :
      env_ok e -> reachable (constructor e)
  | reachable_transact s e c :
      reachable s -> env_ok e -> call_ok c -> reachable (transact e c s).1.

(** ** The error kinds of the specification, as the source's revert reasons *)

Definition Unauthorized : failure := Revert "Only admin can call this function".
Definition SystemInactive : failure := Revert "Attendance system is not active".
Definition NotRegistered : failure := Revert "Student not registered".
Definition AlreadyMarked : failure := Revert "Attendance already marked for today".
Definition NotFound : failure := Revert "Student not found".

(** ** Derived notions used by the statements *)

(** The day-index of a timestamp. *)
Definition dayIndex (now : Z) : Z := now / days 1.

(** The attendance records that exist for an identity: the entries of its
    inner mapping whose [isPresent] flag is set. *)
Definition presentRecords (s : Storage) (a : Z) : gmap Z AttendanceRecord :=
  filter (fun kv => isPresent kv.2 = true) (recordsOf s a).

Definition numRecords (s : Storage) (a : Z) : nat := size (presentRecords s a).

(** The storage after a registration and after an attendance mark. *)
Definition registered (e : Env) (user : Z) (matric nm : string) (s : Storage) : Storage :=
  set_count (count s + 1)
    (push_registeredUsers user
       (set_matricToAddress matric user
          (set_student user (mkStudent matric nm true (block_timestamp e)) s))).

Definition marked (e : Env) (s : Storage) : Storage :=
  set_attendanceCount (msg_sender e) (attendanceCountAt s (msg_sender e) + 1)
    (set_record (msg_sender e) (dayIndex (block_timestamp e))
       (mkAttendanceRecord (block_timestamp e) true
                           (matricNumber (studentAt s (msg_sender e)))) s).

(** The day-indices at which an identity has an attendance record. *)
Definition recordDays (s : Storage) (a : Z) : gset Z := dom (presentRecords s a).

(** Storage reached from [s] by further transactions. *)
Inductive reaches (s : Storage) : Storage -> Prop :=
  | reaches_refl : reaches s s
  | reaches_transact s' e c :
      reaches s s' -> env_ok e -> call_ok c -> reaches s (transact e c s').1.

(** The storage after a run of [toggleSystem] transactions. *)
Definition toggles (es : list Env) (s : Storage) : Storage :=
  foldl (fun s e => (transact e ToggleSystem s).1) s es.

(** ** The storage invariant *)

(** The largest day-index a [uint256] timestamp can map to, plus one. *)
Definition dayBound : Z := max_uint256 / days 1 + 1.

Record Inv (s : Storage) : Prop := mkInv {
  inv_count : count s = Z.of_nat (length (registeredUsers s));
  inv_nodup : NoDup (registeredUsers s);
  inv_listed : forall u, u ∈ registeredUsers s <-> isRegistered (studentAt s u) = true;
  inv_range : forall u, u ∈ registeredUsers s -> 0 <= u < 2 ^ 160;
  inv_attendance : forall a, attendanceCountAt s a = Z.of_nat (numRecords s a);
  inv_days : forall a d, is_Some (recordsOf s a !! d) -> 0 <= d < dayBound;
  inv_present : forall a d r, recordsOf s a !! d = Some r -> isPresent r = true;
  inv_matric : forall m, addressOfMatric s m <> 0 ->
      matricNumber (studentAt s (addressOfMatric s m)) = m /\
      isRegistered (studentAt s (addressOfMatric s m)) = true;
  inv_empty_matric : addressOfMatric s "" = 0
}.

(** ** Return data *)

(** The values of a returned tuple, in the order of the function's
    [returns (...)] list. *)
Inductive Value :=
  | VAddress (a : Z)
  | VString (str : string)
  | VBool (b : bool)
  | VUint (n : Z).

Definition returnData_getStudentByAddress (s : Storage) (a : Z) : list Value :=
  let '(m, nm, reg, date) := getStudentByAddress s a in
  [VString m; VString nm; VBool reg; VUint date].

Definition returnData_getStudentByMatric (s : Storage) (m : string) : failure + list Value :=
  match getStudentByMatric s m with
  | inl f => inl f
  | inr (a, nm, reg, date) => inr [VAddress a; VString nm; VBool reg; VUint date]
  end.

(** ** Sample runs *)

Definition deployer : Env := mkEnv 1 1700000000.
Definition alice : Z := 2.
Definition bob : Z := 3.

(** The owner (identity 1) deploys and registers Alice. *)
Definition ledger0 : Storage := constructor deployer.
Definition ledger1 : Storage :=
  (transact (mkEnv 1 1700000100) (RegisterUser alice "CSC001" "Alice") ledger0).1.
(** Alice marks attendance; the owner then switches the system off. *)
Definition ledger2 : Storage := (transact (mkEnv alice 1700000200) MarkAttendance ledger1).1.
Definition ledger3 : Storage := (transact (mkEnv 1 1700000300) ToggleSystem ledger2).1.

(** ** What the stored records hold *)

Record RecordsInv (s : Storage) : Prop := mkRecordsInv {
  rinv_admin : address_ok (admin s);
  rinv_students : forall a st, students s !! a = Some st ->
      isRegistered st = true /\ matricNumber st <> "" /\ name st <> "" /\
      uint256_ok (registrationDate st) /\ address_ok a /\ a <> 0 /\
      addressOfMatric s (matricNumber st) = a;
  rinv_records : forall a d r, recordsOf s a !! d = Some r ->
      isRegistered (studentAt s a) = true /\ isPresent r = true /\
      uint256_ok (timestamp r) /\ dayIndex (timestamp r) = d /\
      recMatricNumber r = matricNumber (studentAt s a)
}.

(** The messages of the [require]s a call can fail on, modifiers included,
    in the order the checks run. *)
Definition revertReasons (c : Call) : list string :=
  match c with
  | RegisterUser _ _ _ =>
      ["Only admin can call this function"; "Invalid address"; "Invalid matric number";
       "Invalid name"; "User already registered"; "Matric number already registered"]
  | MarkAttendance =>
      ["Attendance system is not active"; "Student not registered";
       "Attendance already marked for today"]
  | ToggleSystem => ["Only admin can call this function"]
  end.

(** ** The client service ([frontend/src/services/attendanceService.ts]) *)

(** The two student lookups of [AttendanceService].  A method checks its
    contract handle, awaits the view call on the current storage and
    repackages the returned tuple as a [StudentData] object; a reverted call
    rejects the promise. *)
Module AttendanceService.

Record StudentData := mkStudentData {
  matricNumber : string;
  name : string;
  isRegistered : bool;
  registrationDate : Z
}.

Inductive Rejection :=
  | Error (message : string)
  | CallException (f : failure).

(** [contract] is [None] for the null handle; [Some chain] gives the
    storage the handle's calls read. *)
Record Service := mkService {
  contract : option Storage;
  signer : option Z
}.

Definition getStudentByAddress (this : Service) (address : Z)
  : Rejection + StudentData :=
  match contract this with
  | None => inl (Error "Contract not initialized")
  | Some chain =>
      let '(matricNumber, name, isRegistered, registrationDate) :=
        getStudentByAddress chain address in
      inr (mkStudentData matricNumber name isRegistered registrationDate)
  end.

Definition getStudentByMatric (this : Service) (matricNumber : string)
  : Rejection + (StudentData * Z) :=
  match contract this with
  | None => inl (Error "Contract not initialized")
  | Some chain =>
      match getStudentByMatric chain matricNumber with
      | inl f => inl (CallException f)
      | inr (address, name, isRegistered, registrationDate) =>
          inr (mkStudentData matricNumber name isRegistered registrationDate, address)
      end
  end.

End AttendanceService.

(** ** Histories and what their event log says *)

(** Running a list of transactions in order, collecting the events of the
    successful ones. *)
Definition step_log (sl : Storage * list Event) (tx : Env * Call) : Storage * list Event :=
  match transact tx.1 tx.2 sl.1 with
  | (s', Success logs) => (s', sl.2 ++ logs)
  | (s', Reverted _) => (s', sl.2)
  end.

Definition run (deploy : Env) (txs : list (Env * Call)) : Storage * list Event :=
  foldl step_log (constructor deploy, []) txs.

(** The identities of the [UserRegistered] events, the number of
    [AttendanceMarked] events of an identity, and the flag carried by the
    last [SystemStateChanged] event ([true] when there is none). *)
Definition registeredIn (logs : list Event) : list Z :=
  omap (fun ev => match ev with UserRegistered u _ _ => Some u | _ => None end) logs.

Definition isMarkOf (a : Z) (ev : Event) : bool :=
  match ev with
  | AttendanceMarked u _ _ _ => u =? a
  | _ => false
  end.

Definition marksIn (a : Z) (logs : list Event) : nat :=
  length (filter (fun ev => isMarkOf a ev = true) logs).

Definition activeAfter (logs : list Event) : bool :=
  foldl (fun b ev => match ev with SystemStateChanged b' => b' | _ => b end) true logs.

(** ** Proof tactics *)

Ltac range_ok :=
  repeat match goal with
         | |- env_ok _ => split
         | |- call_ok _ => cbn
         | |- address_ok _ => split
         | |- uint256_ok _ => split
         | |- True => exact I
         | |- (_ <= _)%Z => apply Z.leb_le; vm_compute; reflexivity
         | |- (_ < _)%Z => apply Z.ltb_lt; vm_compute; reflexivity
         end.

(** Case split on the next guard of an unfolded body. *)
Ltac split_guard :=
  match goal with
  | |- context [if ?b then _ else _] =>
      match type of b with bool => destruct b eqn:? end
  end.

(** * Lemmas *)

(** ** Unfolding the three bodies into decision trees *)

Lemma registerUser_unfold e user matric nm s :
  registerUser e user matric nm s =
    if negb (msg_sender e =? admin s) then inl Unauthorized
    else if user =? 0 then inl (Revert "Invalid address")
    else if negb (0 <? Z.of_nat (String.length matric)) then inl (Revert "Invalid matric number")
    else if negb (0 <? Z.of_nat (String.length nm)) then inl (Revert "Invalid name")
    else if isRegistered (studentAt s user) then inl (Revert "User already registered")
    else if negb (addressOfMatric s matric =? 0) then inl (Revert "Matric number already registered")
    else if negb (count s <? max_uint256) then inl (Panic 17)
    else inr (tt, registered e user matric nm s, [UserRegistered user matric nm]).
Proof.
  unfold registerUser, onlyAdmin, bind, read, require, checked_inc, write, emit, ret, fail.
  destruct (msg_sender e =? admin s); simpl; [|done].
  destruct (user =? 0); simpl; [done|].
  destruct (0 <? Z.of_nat (String.length matric)); simpl; [|done].
  destruct (0 <? Z.of_nat (String.length nm)); simpl; [|done].
  destruct (isRegistered (studentAt s user)); simpl; [done|].
  destruct (addressOfMatric s matric =? 0); simpl; [|done].
  destruct (count s <? max_uint256); simpl; done.
Qed.

Lemma markAttendance_unfold e s :
  markAttendance e s =
    if negb (isSystemActive s) then inl SystemInactive
    else if negb (isRegistered (studentAt s (msg_sender e))) then inl NotRegistered
    else if isPresent (recordAt s (msg_sender e) (dayIndex (block_timestamp e)))
         then inl AlreadyMarked
    else if negb (attendanceCountAt s (msg_sender e) <? max_uint256) then inl (Panic 17)
    else inr (tt, marked e s,
              [AttendanceMarked (msg_sender e) (matricNumber (studentAt s (msg_sender e)))
                                (dayIndex (block_timestamp e)) (block_timestamp e)]).
Proof.
  unfold markAttendance, systemActive, bind, read, require, checked_inc, write, emit, ret, fail,
    dayIndex.
  destruct (isSystemActive s); simpl; [|done].
  destruct (isRegistered (studentAt s (msg_sender e))) eqn:Hreg; simpl; [|done].
  destruct (isPresent (recordAt s (msg_sender e) (block_timestamp e / days 1))); simpl; [done|].
  change (attendanceCountAt (set_record ?a ?d ?r s) ?b) with (attendanceCountAt s b).
  destruct (attendanceCountAt s (msg_sender e) <? max_uint256); simpl; [|done].
  unfold marked, dayIndex. do 3 f_equal.
Qed.

Lemma toggleSystem_unfold e s :
  toggleSystem e s =
    if negb (msg_sender e =? admin s) then inl Unauthorized
    else inr (tt, set_isSystemActive (negb (isSystemActive s)) s,
              [SystemStateChanged (negb (isSystemActive s))]).
Proof.
  unfold toggleSystem, onlyAdmin, bind, read, require, write, emit, ret, fail.
  destruct (msg_sender e =? admin s); simpl; done.
Qed.

(** ** Counting lemmas *)

Lemma NoDup_length_bounded (l : list Z) (n : Z) :
  NoDup l -> (forall x, x ∈ l -> 0 <= x < n) -> Z.of_nat (length l) <= Z.max 0 n.
Proof.
  intros Hnd Hin.
  assert (Hsub : l ⊆+ seqZ 0 n).
  { apply NoDup_submseteq; [exact Hnd|].
    intros x Hx. apply elem_of_seqZ. specialize (Hin x Hx). lia. }
  apply submseteq_length in Hsub. rewrite length_seqZ in Hsub. lia.
Qed.

Lemma gmap_size_bounded {V} (m : gmap Z V) (n : Z) :
  (forall k, is_Some (m !! k) -> 0 <= k < n) -> Z.of_nat (size m) <= Z.max 0 n.
Proof.
  intros Hkeys. rewrite <- (size_dom (D := gset Z)).
  apply NoDup_length_bounded.
  - apply NoDup_elements.
  - intros x Hx. apply Hkeys. apply elem_of_dom. by apply elem_of_elements.
Qed.

Lemma Inv_constructor e : Inv (constructor e).
Proof.
  split; simpl; try done.
  - constructor.
  - intros u. unfold studentAt. simpl. rewrite lookup_empty. simpl.
    split; [intros H; inversion H | done].
  - intros u H. inversion H.
  - intros a d. unfold recordsOf. simpl. rewrite lookup_empty. simpl.
    rewrite lookup_empty. by intros [? ?].
Qed.

(** Reads after the writes of a registration. *)
Lemma studentAt_registered e user matric nm s a :
  studentAt (registered e user matric nm s) a =
    if decide (a = user) then mkStudent matric nm true (block_timestamp e)
    else studentAt s a.
Proof.
  unfold studentAt, registered. simpl.
  case_decide as H; [subst; by rewrite lookup_insert_eq | by rewrite lookup_insert_ne].
Qed.

Lemma addressOfMatric_registered e user matric nm s m :
  addressOfMatric (registered e user matric nm s) m =
    if decide (m = matric) then user else addressOfMatric s m.
Proof.
  unfold addressOfMatric, registered. simpl.
  case_decide as H; [subst; by rewrite lookup_insert_eq | by rewrite lookup_insert_ne].
Qed.

(** Reads after the writes of an attendance mark. *)
Lemma recordsOf_marked e s a :
  recordsOf (marked e s) a =
    if decide (a = msg_sender e)
    then <[dayIndex (block_timestamp e) :=
             mkAttendanceRecord (block_timestamp e) true
               (matricNumber (studentAt s (msg_sender e)))]> (recordsOf s a)
    else recordsOf s a.
Proof.
  unfold recordsOf at 1. unfold marked. simpl.
  case_decide as H; [subst; by rewrite lookup_insert_eq | by rewrite lookup_insert_ne].
Qed.

Lemma attendanceCountAt_marked e s a :
  attendanceCountAt (marked e s) a =
    if decide (a = msg_sender e) then attendanceCountAt s a + 1
    else attendanceCountAt s a.
Proof.
  unfold attendanceCountAt at 1. unfold marked. simpl.
  case_decide as H; [subst; by rewrite lookup_insert_eq | by rewrite lookup_insert_ne].
Qed.

Lemma dayIndex_range now : uint256_ok now -> 0 <= dayIndex now < dayBound.
Proof.
  unfold uint256_ok, dayIndex, dayBound, max_uint256, days. intros H.
  split; [apply Z.div_pos; lia|].
  assert (now / (1 * 86400) <= (2 ^ 256 - 1) / (1 * 86400)); [|lia].
  apply Z.div_le_mono; lia.
Qed.

(** Marking a day that holds no present record adds exactly one record. *)
Lemma numRecords_marked e s a :
  isPresent (recordAt s (msg_sender e) (dayIndex (block_timestamp e))) = false ->
  numRecords (marked e s) a =
    if decide (a = msg_sender e) then S (numRecords s a) else numRecords s a.
Proof.
  intros Habsent. unfold numRecords, presentRecords. rewrite recordsOf_marked.
  case_decide as H; [subst a|done].
  rewrite map_filter_insert_True by done.
  apply map_size_insert_None. apply map_lookup_filter_None.
  unfold recordAt in Habsent.
  destruct (recordsOf s (msg_sender e) !! dayIndex (block_timestamp e)) as [r|] eqn:Hr;
    [right|by left].
  intros x Hx. simpl in *. injection Hx as <-. by rewrite Habsent.
Qed.

(** ** The invariant is kept by every write the contract performs *)

Lemma Inv_registered e user matric nm s :
  Inv s -> address_ok user ->
  user <> 0 -> matric <> "" ->
  isRegistered (studentAt s user) = false ->
  addressOfMatric s matric = 0 ->
  Inv (registered e user matric nm s).
Proof.
  intros [Hc Hnd Hl Hr Ha Hd Hp Hm He] Huser Hnz Hne Hfresh Hfree.
  assert (Hnotin : user ∉ registeredUsers s).
  { intros Hin. apply Hl in Hin. congruence. }
  split.
  - cbn. rewrite length_app. cbn. lia.
  - cbn. apply NoDup_app. split_and!; [done| |apply NoDup_singleton].
    intros x Hx Hx'. apply list_elem_of_singleton in Hx'. by subst.
  - intros u. rewrite studentAt_registered. cbn [registered registeredUsers
      set_count push_registeredUsers set_matricToAddress set_student].
    rewrite elem_of_app, list_elem_of_singleton, Hl.
    case_decide; cbn; [tauto|]. split; [intros [?|?]; [done|by subst]|tauto].
  - intros u. cbn. rewrite elem_of_app, list_elem_of_singleton.
    intros [Hu| ->]; [by apply Hr|]. unfold address_ok in Huser. lia.
  - intros a. apply (Ha a).
  - intros a d. apply (Hd a d).
  - intros a d r. apply (Hp a d r).
  - intros m. rewrite addressOfMatric_registered. case_decide as Hmm.
    + subst m. intros _. rewrite studentAt_registered. by rewrite decide_True.
    + intros Hb. destruct (Hm m Hb) as [H1 H2].
      rewrite studentAt_registered. case_decide as Hu; [|done].
      rewrite Hu in H2. congruence.
  - rewrite addressOfMatric_registered. by rewrite decide_False.
Qed.

Lemma Inv_marked e s :
  Inv s -> env_ok e ->
  isPresent (recordAt s (msg_sender e) (dayIndex (block_timestamp e))) = false ->
  Inv (marked e s).
Proof.
  intros [Hc Hnd Hl Hr Ha Hd Hp Hm He] [_ Hts] Habsent.
  split; try done.
  - intros a. rewrite attendanceCountAt_marked, numRecords_marked by done.
    case_decide; rewrite Ha; lia.
  - intros a d. rewrite recordsOf_marked. case_decide; [|apply Hd].
    rewrite lookup_insert. case_decide; [|apply Hd].
    subst d. intros _. by apply dayIndex_range.
  - intros a d r. rewrite recordsOf_marked. case_decide; [|apply Hp].
    rewrite lookup_insert. case_decide; [|apply Hp].
    by intros [= <-].
Qed.

Lemma Inv_set_isSystemActive b s : Inv s -> Inv (set_isSystemActive b s).
Proof. intros []. by split. Qed.

Lemma Inv_transact e c s :
  Inv s -> env_ok e -> call_ok c -> Inv (transact e c s).1.
Proof.
  intros HI He Hc. unfold transact. destruct c as [user matric nm| |]; simpl.
  - rewrite registerUser_unfold.
    destruct (msg_sender e =? admin s); simpl; [|done].
    destruct (user =? 0) eqn:Hu; simpl; [done|].
    destruct (0 <? Z.of_nat (String.length matric)) eqn:Hm; simpl; [|done].
    destruct (0 <? Z.of_nat (String.length nm)); simpl; [|done].
    destruct (isRegistered (studentAt s user)) eqn:Hreg; simpl; [done|].
    destruct (addressOfMatric s matric =? 0) eqn:Hfree; simpl; [|done].
    destruct (count s <? max_uint256); simpl; [|done].
    apply Inv_registered; try done.
    + by apply Z.eqb_neq.
    + intros ->. discriminate Hm.
    + by apply Z.eqb_eq.
  - rewrite markAttendance_unfold.
    destruct (isSystemActive s); simpl; [|done].
    destruct (isRegistered (studentAt s (msg_sender e))); simpl; [|done].
    destruct (isPresent (recordAt s (msg_sender e) (dayIndex (block_timestamp e)))) eqn:Hp;
      simpl; [done|].
    destruct (attendanceCountAt s (msg_sender e) <? max_uint256); simpl; [|done].
    by apply Inv_marked.
  - rewrite toggleSystem_unfold.
    destruct (msg_sender e =? admin s); simpl; [|done].
    by apply Inv_set_isSystemActive.
Qed.

Lemma reachable_Inv s : reachable s -> Inv s.
Proof.
  induction 1 as [e He | s e c Hs IH He Hc].
  - apply Inv_constructor.
  - by apply Inv_transact.
Qed.

(** Neither counter can be at its maximum in storage that satisfies the
    invariant, so the checked increments never panic. *)
Lemma Inv_count_below_max s : Inv s -> count s < max_uint256.
Proof.
  intros HI. rewrite (inv_count s HI).
  pose proof (NoDup_length_bounded (registeredUsers s) (2 ^ 160)
                (inv_nodup s HI) (inv_range s HI)) as Hb.
  assert (2 ^ 160 < 2 ^ 256 - 1) by (apply Z.ltb_lt; reflexivity).
  unfold max_uint256. lia.
Qed.

Lemma dayBound_below_max : dayBound < max_uint256.
Proof. apply Z.ltb_lt. vm_compute. reflexivity. Qed.

Lemma Inv_attendanceCount_below_max s a : Inv s -> attendanceCountAt s a < max_uint256.
Proof.
  intros HI. rewrite (inv_attendance s HI).
  assert (Hle : (numRecords s a <= size (recordsOf s a))%nat).
  { unfold numRecords, presentRecords. apply map_subseteq_size, map_filter_subseteq. }
  pose proof (gmap_size_bounded (recordsOf s a) dayBound (inv_days s HI a)) as Hb.
  pose proof dayBound_below_max.
  assert (0 < max_uint256) by (apply Z.ltb_lt; reflexivity). lia.
Qed.

Lemma reachable_ledger0 : reachable ledger0.
Proof. apply reachable_deploy. range_ok. Defined.

Lemma reachable_ledger1 : reachable ledger1.
Proof. apply reachable_transact; [exact reachable_ledger0 | range_ok | range_ok]. Defined.

Lemma reachable_ledger2 : reachable ledger2.
Proof. apply reachable_transact; [exact reachable_ledger1 | range_ok | range_ok]. Defined.

Lemma reachable_ledger3 : reachable ledger3.
Proof. apply reachable_transact; [exact reachable_ledger2 | range_ok | range_ok]. Defined.

(** * Lookup by matric number *)

(** C1, as stated, fails: after the owner registers Alice under "CSC001",
    that matric number is bound to her identity, yet the tuple returned by
    [getStudentByMatric] is not the [getStudentByAddress] tuple followed by
    the identity; the matric number is no component of it at all. *)
Lemma C1_counterexample :
  addressOfMatric ledger1 "CSC001" = alice /\
  alice <> 0 /\
  returnData_getStudentByMatric ledger1 "CSC001" <>
    inr (returnData_getStudentByAddress ledger1 alice ++ [VAddress alice]) /\
  (forall vs, returnData_getStudentByMatric ledger1 "CSC001" = inr vs ->
              VString "CSC001" ∉ vs).
Proof.
  split; [reflexivity|]. split; [discriminate|]. split.
  - vm_compute. discriminate.
  - intros vs H. vm_compute in H. injection H as <-.
    rewrite !elem_of_cons. intros [H|[H|[H|[H|H]]]]; try discriminate H.
    inversion H.
Qed.

(** C1 (amended): in every reachable storage, for a matric number bound to
    an identity [a], [getStudentByMatric] returns
    [(a, name, registered, registrationDate)], whose last three components
    are those of [getStudentByAddress a], and the matric number component of
    [getStudentByAddress a] is the argument itself; for an unbound matric
    number it fails with [NotFound]. *)
Theorem C1_getStudentByMatric (s : Storage) (m : string) :
  reachable s ->
  let a := addressOfMatric s m in
  (a <> 0 ->
     exists nm reg date,
       getStudentByAddress s a = (m, nm, reg, date) /\
       getStudentByMatric s m = inr (a, nm, reg, date) /\
       getStudentAddressByMatric s m = inr a) /\
  (a = 0 -> getStudentByMatric s m = inl NotFound).
Proof.
  intros Hr a. apply reachable_Inv in Hr. split.
  - intros Ha. destruct (inv_matric s Hr m Ha) as [Hm _]. fold a in Hm.
    exists (name (studentAt s a)), (isRegistered (studentAt s a)),
      (registrationDate (studentAt s a)).
    assert (Hnz : negb (a =? 0) = true) by (apply negb_true_iff; by apply Z.eqb_neq).
    unfold getStudentByAddress, getStudentByMatric, getStudentAddressByMatric.
    fold a. rewrite Hnz, Hm. done.
  - intros Ha. unfold getStudentByMatric. fold a. by rewrite Ha.
Qed.

Lemma C1_getStudentByMatric_witness :
  getStudentByMatric ledger1 "CSC001" = inr (alice, "Alice", true, 1700000100) /\
  getStudentByMatric ledger1 "CSC002" = inl NotFound.
Proof.
  destruct (C1_getStudentByMatric ledger1 "CSC001" reachable_ledger1) as [H1 _].
  destruct (C1_getStudentByMatric ledger1 "CSC002" reachable_ledger1) as [_ H2].
  split; [|apply H2; reflexivity].
  destruct H1 as (nm & reg & date & Hadr & Hmat & _); [discriminate|].
  vm_compute in Hadr. injection Hadr as <- <- <-. exact Hmat.
Defined.

(** * The attendance counter *)

Lemma elem_of_recordDays s a d :
  d ∈ recordDays s a <-> verifyAttendance s a d = true.
Proof.
  unfold recordDays, presentRecords, verifyAttendance, recordAt.
  rewrite elem_of_dom. split.
  - intros [r Hr]. apply map_lookup_filter_Some in Hr as [Hr Hp]. by rewrite Hr.
  - destruct (recordsOf s a !! d) as [r|] eqn:Hr; [|done].
    intros Hp. exists r. by apply map_lookup_filter_Some.
Qed.

Lemma size_recordDays s a : size (recordDays s a) = numRecords s a.
Proof. unfold recordDays, numRecords. apply size_dom. Qed.

(** C2: in every reachable storage the attendance counter of an identity is
    the number of attendance records of that identity, that is, the number
    of day-indices at which [verifyAttendance] finds a record present. *)
Theorem C2_counter_counts_records (s : Storage) (a : Z) :
  reachable s ->
  getAttendanceCount s a = Z.of_nat (numRecords s a) /\
  getAttendanceCount s a = Z.of_nat (size (recordDays s a)) /\
  (forall d, d ∈ recordDays s a <-> verifyAttendance s a d = true).
Proof.
  intros Hr. apply reachable_Inv in Hr. split_and!.
  - apply (inv_attendance s Hr).
  - rewrite size_recordDays. apply (inv_attendance s Hr).
  - apply elem_of_recordDays.
Qed.

Lemma C2_counter_counts_records_witness :
  getAttendanceCount ledger2 alice = 1 /\ numRecords ledger2 alice = 1%nat.
Proof.
  destruct (C2_counter_counts_records ledger2 alice reachable_ledger2) as (H & _ & _).
  split; [reflexivity|].
  apply Nat2Z.inj. rewrite <- H. reflexivity.
Defined.

(** * Marking attendance *)

Lemma recordAt_marked e s a d :
  recordAt (marked e s) a d =
    if decide (a = msg_sender e /\ d = dayIndex (block_timestamp e))
    then mkAttendanceRecord (block_timestamp e) true
           (matricNumber (studentAt s (msg_sender e)))
    else recordAt s a d.
Proof.
  unfold recordAt. rewrite recordsOf_marked.
  destruct (decide (a = msg_sender e)) as [->|Ha].
  - rewrite lookup_insert. destruct (decide (dayIndex (block_timestamp e) = d)) as [<-|Hd].
    + by rewrite decide_True.
    + rewrite decide_False; [done|]. intros [_ ->]. done.
  - rewrite decide_False; [done|]. by intros [? _].
Qed.

Lemma transact_mark_success e s :
  isSystemActive s = true ->
  isRegistered (studentAt s (msg_sender e)) = true ->
  verifyAttendance s (msg_sender e) (dayIndex (block_timestamp e)) = false ->
  attendanceCountAt s (msg_sender e) < max_uint256 ->
  transact e MarkAttendance s =
    (marked e s,
     Success [AttendanceMarked (msg_sender e) (matricNumber (studentAt s (msg_sender e)))
                (dayIndex (block_timestamp e)) (block_timestamp e)]).
Proof.
  intros Hact Hreg Habs Hcnt. unfold transact, dispatch, verifyAttendance in *.
  rewrite markAttendance_unfold, Hact, Hreg, Habs.
  apply Z.ltb_lt in Hcnt. by rewrite Hcnt.
Qed.

Lemma transact_mark_already e s :
  isSystemActive s = true ->
  isRegistered (studentAt s (msg_sender e)) = true ->
  verifyAttendance s (msg_sender e) (dayIndex (block_timestamp e)) = true ->
  transact e MarkAttendance s = (s, Reverted AlreadyMarked).
Proof.
  intros Hact Hreg Hp. unfold transact, dispatch, verifyAttendance in *.
  by rewrite markAttendance_unfold, Hact, Hreg, Hp.
Qed.

(** Student records and attendance records are never removed. *)
Lemma transact_keeps_registered e c s a :
  isRegistered (studentAt s a) = true ->
  isRegistered (studentAt (transact e c s).1 a) = true.
Proof.
  intros Hreg. unfold transact. destruct c as [user matric nm| |]; simpl.
  - rewrite registerUser_unfold.
    repeat (split_guard; simpl; [done|]).
    rewrite studentAt_registered. by case_decide.
  - rewrite markAttendance_unfold.
    repeat (split_guard; simpl; [done|]).
    done.
  - rewrite toggleSystem_unfold. by destruct (negb _).
Qed.

Lemma transact_keeps_record e c s a d :
  verifyAttendance s a d = true ->
  verifyAttendance (transact e c s).1 a d = true.
Proof.
  intros Hp. unfold transact. destruct c as [user matric nm| |]; simpl.
  - rewrite registerUser_unfold.
    repeat (split_guard; simpl; [done|]).
    done.
  - rewrite markAttendance_unfold.
    repeat (split_guard; simpl; [done|]).
    unfold verifyAttendance. rewrite recordAt_marked. by case_decide.
  - rewrite toggleSystem_unfold. by destruct (negb _).
Qed.

Lemma reaches_keeps s s' a d :
  reaches s s' ->
  (isRegistered (studentAt s a) = true -> isRegistered (studentAt s' a) = true) /\
  (verifyAttendance s a d = true -> verifyAttendance s' a d = true).
Proof.
  induction 1 as [|s' e c Hs [IH1 IH2] He Hc]; [done|]. split; intros H.
  - by apply transact_keeps_registered, IH1.
  - by apply transact_keeps_record, IH2.
Qed.

Lemma reaches_Inv s s' : Inv s -> reaches s s' -> Inv s'.
Proof.
  intros HI. induction 1 as [|s' e c Hs IH He Hc]; [done|]. by apply Inv_transact.
Qed.

(** An identity whose counter is zero has no record on any day. *)
Lemma Inv_no_records s a d :
  Inv s -> attendanceCountAt s a = 0 -> verifyAttendance s a d = false.
Proof.
  intros HI H0. rewrite (inv_attendance s HI) in H0.
  apply not_true_is_false. intros Hp. apply elem_of_recordDays in Hp.
  unfold recordDays, numRecords in *.
  assert (Hsz : size (presentRecords s a) = 0%nat) by lia.
  apply map_size_empty_inv in Hsz. rewrite Hsz, dom_empty_L in Hp.
  by apply not_elem_of_empty in Hp.
Qed.

(** C3: for a registered identity with the system active, the first
    [markAttendance] call succeeds and brings the counter to 1; a second call
    whose timestamp has the same day-index fails with [AlreadyMarked] and
    leaves the storage, and so the counter at 1, as it was (also after any
    further transactions, as long as the system is active); a call whose
    timestamp has a different day-index succeeds (also after any further
    transactions, as long as the system is active and that day-index holds
    no record yet). *)
Theorem C3_once_per_day (s : Storage) (e : Env) :
  reachable s -> env_ok e ->
  isSystemActive s = true ->
  isRegistered (studentAt s (msg_sender e)) = true ->
  getAttendanceCount s (msg_sender e) = 0 ->
  let a := msg_sender e in
  let s1 := marked e s in
  (exists logs, transact e MarkAttendance s = (s1, Success logs)) /\
  getAttendanceCount s1 a = 1 /\
  (forall e', msg_sender e' = a ->
     dayIndex (block_timestamp e') = dayIndex (block_timestamp e) ->
     transact e' MarkAttendance s1 = (s1, Reverted AlreadyMarked)) /\
  (forall e' s2, msg_sender e' = a ->
     dayIndex (block_timestamp e') = dayIndex (block_timestamp e) ->
     reaches s1 s2 -> isSystemActive s2 = true ->
     transact e' MarkAttendance s2 = (s2, Reverted AlreadyMarked)) /\
  (forall e', env_ok e' -> msg_sender e' = a ->
     dayIndex (block_timestamp e') <> dayIndex (block_timestamp e) ->
     (exists logs, transact e' MarkAttendance s1 = (marked e' s1, Success logs)) /\
     getAttendanceCount (marked e' s1) a = 2) /\
  (forall e' s2, env_ok e' -> msg_sender e' = a ->
     reaches s1 s2 -> isSystemActive s2 = true ->
     verifyAttendance s2 a (dayIndex (block_timestamp e')) = false ->
     (exists logs, transact e' MarkAttendance s2 = (marked e' s2, Success logs)) /\
     getAttendanceCount (marked e' s2) a = getAttendanceCount s2 a + 1).
Proof.
  intros Hr He Hact Hreg H0 a s1. apply reachable_Inv in Hr.
  unfold getAttendanceCount in *. subst a s1.
  set (a := msg_sender e) in *. set (s1 := marked e s).
  assert (Habs : forall d, verifyAttendance s a d = false)
    by (intros d; by apply Inv_no_records).
  assert (H1 : attendanceCountAt s1 a = 1).
  { unfold s1. rewrite attendanceCountAt_marked, decide_True by done. by rewrite H0. }
  assert (HI1 : Inv s1) by (apply Inv_marked; [done|done|apply (Habs _)]).
  assert (Hmarked : verifyAttendance s1 a (dayIndex (block_timestamp e)) = true).
  { unfold verifyAttendance, s1. rewrite recordAt_marked. by rewrite decide_True. }
  assert (Hsame : forall e' s2, msg_sender e' = a ->
     dayIndex (block_timestamp e') = dayIndex (block_timestamp e) ->
     reaches s1 s2 -> isSystemActive s2 = true ->
     transact e' MarkAttendance s2 = (s2, Reverted AlreadyMarked)).
  { intros e' s2 Ha Hd Hs2 Hact2.
    destruct (reaches_keeps s1 s2 a (dayIndex (block_timestamp e)) Hs2) as [K1 K2].
    apply transact_mark_already; [done| |]; rewrite Ha.
    - by apply K1.
    - rewrite Hd. by apply K2. }
  split_and!.
  - eexists. apply transact_mark_success; try done. fold a. by rewrite H0.
  - done.
  - intros e' Ha Hd. apply Hsame; [done|done|constructor|done].
  - done.
  - intros e' He' Ha Hd. split.
    + eexists. apply transact_mark_success; rewrite ?Ha; try done.
      * unfold verifyAttendance, s1. rewrite recordAt_marked, decide_False by tauto.
        apply (Habs _).
      * by apply Inv_attendanceCount_below_max.
    + rewrite attendanceCountAt_marked, decide_True by done. by rewrite H1.
  - intros e' s2 He' Ha Hs2 Hact2 Hfree.
    destruct (reaches_keeps s1 s2 a (dayIndex (block_timestamp e)) Hs2) as [K1 _].
    split.
    + eexists. apply transact_mark_success; rewrite ?Ha; try done.
      * by apply K1.
      * by apply Inv_attendanceCount_below_max, (reaches_Inv s1).
    + unfold getAttendanceCount. by rewrite attendanceCountAt_marked, decide_True.
Qed.

Lemma C3_once_per_day_witness :
  (exists logs, transact (mkEnv alice 1700000200) MarkAttendance ledger1
                = (ledger2, Success logs)) /\
  getAttendanceCount ledger2 alice = 1 /\
  transact (mkEnv alice 1700003800) MarkAttendance ledger2 = (ledger2, Reverted AlreadyMarked) /\
  getAttendanceCount (marked (mkEnv alice 1700086600) ledger2) alice = 2.
Proof.
  assert (He : env_ok (mkEnv alice 1700000200)) by range_ok.
  assert (He' : env_ok (mkEnv alice 1700086600)) by range_ok.
  destruct (C3_once_per_day ledger1 (mkEnv alice 1700000200) reachable_ledger1 He
              eq_refl eq_refl eq_refl) as (H1 & H2 & H3 & _ & H5 & _).
  split; [exact H1|]. split; [exact H2|]. split.
  - apply (H3 (mkEnv alice 1700003800)); reflexivity.
  - apply (H5 (mkEnv alice 1700086600) He' eq_refl). discriminate.
Defined.

(** * The active flag gates marking *)

Lemma transact_toggle_admin e s :
  msg_sender e = admin s ->
  transact e ToggleSystem s =
    (set_isSystemActive (negb (isSystemActive s)) s,
     Success [SystemStateChanged (negb (isSystemActive s))]).
Proof.
  intros Ha. unfold transact, dispatch. rewrite toggleSystem_unfold.
  apply Z.eqb_eq in Ha. by rewrite Ha.
Qed.

(** C4: while the active flag is false, [markAttendance] fails with
    [SystemInactive] for every caller, registered or not; once the owner has
    toggled the flag back, a registered identity that has no record for the
    current day-index marks successfully. *)
Theorem C4_inactive_blocks_marking (s : Storage) :
  isSystemActive s = false ->
  (forall e, transact e MarkAttendance s = (s, Reverted SystemInactive)) /\
  (forall e0 e,
     reachable s -> msg_sender e0 = admin s -> env_ok e ->
     isRegistered (studentAt s (msg_sender e)) = true ->
     verifyAttendance s (msg_sender e) (dayIndex (block_timestamp e)) = false ->
     let s1 := (transact e0 ToggleSystem s).1 in
     isSystemActive s1 = true /\
     exists logs, transact e MarkAttendance s1 = (marked e s1, Success logs)).
Proof.
  intros Hoff. split.
  - intros e. unfold transact, dispatch. by rewrite markAttendance_unfold, Hoff.
  - intros e0 e Hr Hadm He Hreg Habs s1. subst s1.
    rewrite (transact_toggle_admin e0 s Hadm), Hoff. cbn [fst negb]. split; [done|].
    eexists. apply transact_mark_success; try done.
    apply Inv_attendanceCount_below_max, Inv_set_isSystemActive, reachable_Inv, Hr.
Qed.

Lemma C4_inactive_blocks_marking_witness :
  transact (mkEnv alice 1700086600) MarkAttendance ledger3 = (ledger3, Reverted SystemInactive) /\
  transact (mkEnv bob 1700086600) MarkAttendance ledger3 = (ledger3, Reverted SystemInactive) /\
  exists logs,
    transact (mkEnv alice 1700086600) MarkAttendance
      (transact (mkEnv 1 1700086500) ToggleSystem ledger3).1
    = (marked (mkEnv alice 1700086600)
         (transact (mkEnv 1 1700086500) ToggleSystem ledger3).1, Success logs).
Proof.
  destruct (C4_inactive_blocks_marking ledger3 eq_refl) as [H1 H2].
  split; [apply H1|]. split; [apply H1|].
  assert (He : env_ok (mkEnv alice 1700086600)) by range_ok.
  exact (proj2 (H2 (mkEnv 1 1700086500) (mkEnv alice 1700086600)
                   reachable_ledger3 eq_refl He eq_refl eq_refl)).
Defined.

(** * Owner-only operations *)

(** C5: for a caller other than the owner, [registerUser] and [toggleSystem]
    fail with [Unauthorized], and the storage after the failed call is the
    storage before it, in every component. *)
Theorem C5_only_owner (s : Storage) (e : Env) (user : Z) (matric nm : string) :
  msg_sender e <> admin s ->
  transact e (RegisterUser user matric nm) s = (s, Reverted Unauthorized) /\
  transact e ToggleSystem s = (s, Reverted Unauthorized).
Proof.
  intros Hne. apply Z.eqb_neq in Hne. unfold transact, dispatch.
  by rewrite registerUser_unfold, toggleSystem_unfold, Hne.
Qed.

Lemma C5_only_owner_witness :
  transact (mkEnv alice 1700000400) (RegisterUser bob "CSC002" "Bob") ledger1
    = (ledger1, Reverted Unauthorized) /\
  transact (mkEnv alice 1700000400) ToggleSystem ledger1 = (ledger1, Reverted Unauthorized).
Proof.
  apply (C5_only_owner ledger1 (mkEnv alice 1700000400) bob "CSC002" "Bob").
  discriminate.
Defined.

(** * The registration counter *)

(** C6: in every reachable storage [count] is the length of the list that
    [getRegisteredUsers] returns; a successful registration appends the
    registered identity to that list and adds one to [count]; every other
    transaction, and every failed one, leaves both as they were. *)
Theorem C6_registration_count (s : Storage) :
  reachable s ->
  count s = Z.of_nat (length (getRegisteredUsers s)) /\
  (forall e c,
     let r := transact e c s in
     match c, r.2 with
     | RegisterUser user _ _, Success _ =>
         getRegisteredUsers r.1 = getRegisteredUsers s ++ [user] /\
         count r.1 = count s + 1
     | _, _ =>
         getRegisteredUsers r.1 = getRegisteredUsers s /\ count r.1 = count s
     end).
Proof.
  intros Hr. split; [apply (inv_count s (reachable_Inv s Hr))|].
  intros e c r. subst r. unfold transact. destruct c as [user matric nm| |]; cbn [dispatch].
  - rewrite registerUser_unfold.
    repeat (split_guard; cbn; [done|]).
    done.
  - rewrite markAttendance_unfold.
    repeat (split_guard; cbn; [done|]).
    done.
  - rewrite toggleSystem_unfold. by destruct (negb _).
Qed.

Lemma C6_registration_count_witness :
  count ledger1 = 1 /\ getRegisteredUsers ledger1 = [alice] /\
  count (transact (mkEnv 1 1700000500) (RegisterUser bob "CSC002" "Bob") ledger1).1 = 2 /\
  getRegisteredUsers (transact (mkEnv 1 1700000500) (RegisterUser bob "CSC002" "Bob") ledger1).1
    = [alice; bob].
Proof.
  destruct (C6_registration_count ledger1 reachable_ledger1) as [H1 H2].
  destruct (H2 (mkEnv 1 1700000500) (RegisterUser bob "CSC002" "Bob")) as [H3 H4].
  split; [exact H1|]. split; [reflexivity|]. split; [exact H4|exact H3].
Defined.

(** * The day-index *)

Lemma dayIndex_floor now :
  dayIndex now = now / 86400 /\
  dayIndex now * 86400 <= now < (dayIndex now + 1) * 86400.
Proof.
  unfold dayIndex, days. change (1 * 86400) with 86400. split; [done|].
  pose proof (Z.div_mod now 86400 ltac:(lia)).
  pose proof (Z.mod_pos_bound now 86400 ltac:(lia)). lia.
Qed.

(** C7: a successful [markAttendance] at timestamp [now] files its record
    under the day-index [now / 86400] (the floor of the quotient): no record
    was present under that index before, the record read back under that
    index afterwards carries [now] and is present, the record under every
    other key is as before, and the event carries the same index. *)
Theorem C7_day_index (s s' : Storage) (e : Env) (logs : list Event) :
  transact e MarkAttendance s = (s', Success logs) ->
  let now := block_timestamp e in
  let today := now / 86400 in
  dayIndex now = today /\
  today * 86400 <= now < (today + 1) * 86400 /\
  verifyAttendance s (msg_sender e) today = false /\
  getAttendanceRecord s' (msg_sender e) today = (now, true) /\
  verifyAttendance s' (msg_sender e) today = true /\
  (forall a d, (a, d) <> (msg_sender e, today) -> recordAt s' a d = recordAt s a d) /\
  logs = [AttendanceMarked (msg_sender e) (matricNumber (studentAt s (msg_sender e)))
            today now].
Proof.
  intros Htx now today. destruct (dayIndex_floor now) as [Hday Hfloor].
  fold today in Hday. rewrite Hday in Hfloor.
  unfold transact, dispatch in Htx. rewrite markAttendance_unfold in Htx.
  fold now in Htx. rewrite Hday in Htx.
  destruct (isSystemActive s); [|discriminate Htx].
  destruct (isRegistered (studentAt s (msg_sender e))); [|discriminate Htx].
  destruct (isPresent (recordAt s (msg_sender e) today)) eqn:Habs; [discriminate Htx|].
  destruct (attendanceCountAt s (msg_sender e) <? max_uint256); [|discriminate Htx].
  cbn -[marked] in Htx. injection Htx as <- <-.
  assert (Hrec : recordAt (marked e s) (msg_sender e) today
                 = mkAttendanceRecord now true (matricNumber (studentAt s (msg_sender e)))).
  { rewrite recordAt_marked, decide_True; [done|]. split; [done|]. by rewrite <- Hday. }
  destruct Hfloor as [Hlo Hhi]. split_and!; try done.
  - unfold getAttendanceRecord. by rewrite Hrec.
  - unfold verifyAttendance. by rewrite Hrec.
  - intros a d Hne. rewrite recordAt_marked, decide_False; [done|].
    fold now. rewrite Hday. intros [-> ->]. done.
Qed.

Lemma C7_day_index_witness :
  dayIndex 1700000200 = 19675 /\
  getAttendanceRecord ledger2 alice 19675 = (1700000200, true).
Proof.
  assert (Htx : transact (mkEnv alice 1700000200) MarkAttendance ledger1
                = (ledger2, Success [AttendanceMarked alice "CSC001" 19675 1700000200]))
    by reflexivity.
  destruct (C7_day_index _ _ _ _ Htx) as (H1 & _ & _ & H2 & _).
  split; [exact H1 | exact H2].
Defined.

(** * Toggling *)

Lemma toggles_by_admin es s :
  Forall (fun e => msg_sender e = admin s) es ->
  toggles es s =
    set_isSystemActive
      (if Nat.even (length es) then isSystemActive s else negb (isSystemActive s)) s.
Proof.
  revert s. induction es as [|e es IH]; intros s Hall.
  - cbn. by destruct s.
  - apply Forall_cons in Hall as [He Hes]. unfold toggles. cbn [foldl].
    rewrite (transact_toggle_admin e s He). cbn [fst].
    fold (toggles es (set_isSystemActive (negb (isSystemActive s)) s)).
    rewrite IH by exact Hes. cbn [length].
    rewrite Nat.even_succ, <- Nat.negb_even.
    destruct (Nat.even (length es)), (isSystemActive s); reflexivity.
Qed.

(** C8: [toggleSystem] called by the owner any number of times leaves the
    flag at its original value after an even number of calls and at the
    negated value after an odd number, and changes no other component of the
    storage. *)
Theorem C8_toggle_involution (s : Storage) (es : list Env) :
  Forall (fun e => msg_sender e = admin s) es ->
  let s' := toggles es s in
  isSystemActive s' =
    (if Nat.even (length es) then isSystemActive s else negb (isSystemActive s)) /\
  admin s' = admin s /\
  students s' = students s /\
  matricToAddress s' = matricToAddress s /\
  attendanceRecords s' = attendanceRecords s /\
  attendanceCount s' = attendanceCount s /\
  registeredUsers s' = registeredUsers s /\
  count s' = count s.
Proof.
  intros Hall s'. subst s'. rewrite (toggles_by_admin es s Hall). by split_and!.
Qed.

Lemma C8_toggle_involution_witness :
  toggles [mkEnv 1 1700000700; mkEnv 1 1700000800] ledger2 = ledger2 /\
  isSystemActive (toggles [mkEnv 1 1700000700; mkEnv 1 1700000800; mkEnv 1 1700000900] ledger2)
    = false.
Proof.
  split; [reflexivity|].
  refine (proj1 (C8_toggle_involution ledger2
                   [mkEnv 1 1700000700; mkEnv 1 1700000800; mkEnv 1 1700000900] _)).
  repeat constructor.
Defined.

(** * Registration does not look at the active flag *)

Lemma registerUser_flag_independent e user matric nm b s :
  registerUser e user matric nm (set_isSystemActive b s) =
    match registerUser e user matric nm s with
    | inl f => inl f
    | inr (x, s', logs) => inr (x, set_isSystemActive b s', logs)
    end.
Proof.
  rewrite !registerUser_unfold.
  change (admin (set_isSystemActive b s)) with (admin s).
  change (studentAt (set_isSystemActive b s)) with (studentAt s).
  change (addressOfMatric (set_isSystemActive b s)) with (addressOfMatric s).
  change (count (set_isSystemActive b s)) with (count s).
  repeat (split_guard; [done|]). done.
Qed.

Lemma transact_register_success e user matric nm s :
  Inv s ->
  msg_sender e = admin s ->
  user <> 0 -> matric <> "" -> nm <> "" ->
  isRegistered (studentAt s user) = false ->
  addressOfMatric s matric = 0 ->
  transact e (RegisterUser user matric nm) s =
    (registered e user matric nm s, Success [UserRegistered user matric nm]).
Proof.
  intros HI Hadm Hu Hm Hn Hfresh Hfree. unfold transact, dispatch.
  rewrite registerUser_unfold.
  apply Z.eqb_eq in Hadm. apply Z.eqb_neq in Hu. rewrite Hadm, Hu, Hfresh, Hfree.
  assert (Hlm : (0 <? Z.of_nat (String.length matric)) = true)
    by (destruct matric; [done|apply Z.ltb_lt; cbn; lia]).
  assert (Hln : (0 <? Z.of_nat (String.length nm)) = true)
    by (destruct nm; [done|apply Z.ltb_lt; cbn; lia]).
  pose proof (Inv_count_below_max s HI) as Hc. apply Z.ltb_lt in Hc.
  by rewrite Hlm, Hln, Hc.
Qed.

(** C9: the result of [registerUser] and its effect on every component
    other than the flag are the same whichever value the flag has; in
    particular, in reachable storage whose flag is false, the owner's call
    with a non-zero identity that is not yet registered, a non-empty matric
    number that is not yet bound and a non-empty name succeeds. *)
Theorem C9_register_ignores_flag (s : Storage) (e : Env) (user : Z) (matric nm : string) :
  (forall b,
     registerUser e user matric nm (set_isSystemActive b s) =
       match registerUser e user matric nm s with
       | inl f => inl f
       | inr (x, s', logs) => inr (x, set_isSystemActive b s', logs)
       end) /\
  (reachable s -> isSystemActive s = false ->
   msg_sender e = admin s ->
   user <> 0 -> matric <> "" -> nm <> "" ->
   isRegistered (studentAt s user) = false ->
   addressOfMatric s matric = 0 ->
   transact e (RegisterUser user matric nm) s =
     (registered e user matric nm s, Success [UserRegistered user matric nm]) /\
   isSystemActive (registered e user matric nm s) = false).
Proof.
  split.
  - intros b. apply registerUser_flag_independent.
  - intros Hr Hoff Hadm Hu Hm Hn Hfresh Hfree. split; [|exact Hoff].
    apply transact_register_success; try done. by apply reachable_Inv.
Qed.

Lemma C9_register_ignores_flag_witness :
  transact (mkEnv 1 1700000500) (RegisterUser bob "CSC002" "Bob") ledger3 =
    (registered (mkEnv 1 1700000500) bob "CSC002" "Bob" ledger3,
     Success [UserRegistered bob "CSC002" "Bob"]) /\
  isSystemActive (registered (mkEnv 1 1700000500) bob "CSC002" "Bob" ledger3) = false.
Proof.
  apply (C9_register_ignores_flag ledger3 (mkEnv 1 1700000500) bob "CSC002" "Bob");
    try reflexivity; try discriminate.
  exact reachable_ledger3.
Defined.

(** * The empty matric number *)

(** C10: in every reachable storage the empty string is bound to no
    identity, registration with an empty matric number is rejected, and both
    lookups of the empty matric number fail with [NotFound]. *)
Theorem C10_empty_matric_unbound (s : Storage) :
  reachable s ->
  matricToAddress s !! "" = None /\
  (forall e user nm, exists f,
      transact e (RegisterUser user "" nm) s = (s, Reverted f)) /\
  getStudentByMatric s "" = inl NotFound /\
  getStudentAddressByMatric s "" = inl NotFound.
Proof.
  intros Hr. split_and!.
  - induction Hr as [e He | s e c Hs IH He Hc]; [done|].
    unfold transact. destruct c as [user matric nm| |]; cbn [dispatch].
    + rewrite registerUser_unfold. repeat (split_guard; cbn; [done|]).
      cbn. rewrite lookup_insert_ne; [done|]. intros ->. discriminate.
    + rewrite markAttendance_unfold. repeat (split_guard; cbn; [done|]). done.
    + rewrite toggleSystem_unfold. by split_guard.
  - intros e user nm. unfold transact, dispatch. rewrite registerUser_unfold.
    change (negb (0 <? Z.of_nat (String.length ""))) with true. cbv iota.
    destruct (negb (msg_sender e =? admin s)); [by eexists|].
    destruct (user =? 0); by eexists.
  - unfold getStudentByMatric. by rewrite (inv_empty_matric s (reachable_Inv s Hr)).
  - unfold getStudentAddressByMatric. by rewrite (inv_empty_matric s (reachable_Inv s Hr)).
Qed.

Lemma C10_empty_matric_unbound_witness :
  getStudentByMatric ledger2 "" = inl NotFound /\
  getStudentAddressByMatric ledger2 "" = inl NotFound.
Proof.
  exact (proj2 (proj2 (C10_empty_matric_unbound ledger2 reachable_ledger2))).
Defined.

(** * The scenario of the specification, run on the model *)

Example scenario :
  let T := 1700000200 in
  let r1 := transact (mkEnv alice T) MarkAttendance ledger1 in
  let r2 := transact (mkEnv alice (T + 3600)) MarkAttendance r1.1 in
  let r3 := transact (mkEnv 1 (T + 7200)) ToggleSystem r2.1 in
  let r4 := transact (mkEnv alice (T + 86400)) MarkAttendance r3.1 in
  let r5 := transact (mkEnv 1 (T + 86400)) ToggleSystem r4.1 in
  let r6 := transact (mkEnv alice (T + 86400)) MarkAttendance r5.1 in
  getAttendanceCount r1.1 alice = 1 /\
  verifyAttendance r1.1 alice (dayIndex T) = true /\
  r2.2 = Reverted AlreadyMarked /\ getAttendanceCount r2.1 alice = 1 /\
  isSystemActive r3.1 = false /\
  r4.2 = Reverted SystemInactive /\
  isSystemActive r5.1 = true /\
  getAttendanceCount r6.1 alice = 2.
Proof. vm_compute. by split_and!. Qed.

(** * Further properties of the contract *)

(** ** The records invariant *)

Lemma RecordsInv_constructor e : env_ok e -> RecordsInv (constructor e).
Proof.
  intros [Ha _]. split; [done| |].
  - intros a st. cbn. by rewrite lookup_empty.
  - intros a d r. unfold recordsOf. cbn. rewrite lookup_empty. cbn. by rewrite lookup_empty.
Qed.

Lemma studentAt_Some s a st : students s !! a = Some st -> studentAt s a = st.
Proof. unfold studentAt. by intros ->. Qed.

Lemma studentAt_registered_Some s a :
  isRegistered (studentAt s a) = true -> students s !! a = Some (studentAt s a).
Proof. unfold studentAt. by destruct (students s !! a). Qed.

Lemma RecordsInv_registered e user matric nm s :
  RecordsInv s -> env_ok e -> address_ok user ->
  user <> 0 -> matric <> "" -> nm <> "" ->
  isRegistered (studentAt s user) = false ->
  addressOfMatric s matric = 0 ->
  RecordsInv (registered e user matric nm s).
Proof.
  intros [Hadm Hst Hrec] [_ Hts] Huser Hnz Hm Hn Hfresh Hfree. split; [done| |].
  - intros a st. cbn [registered students set_count push_registeredUsers
      set_matricToAddress set_student].
    rewrite lookup_insert. case_decide as Ha.
    + subst a. intros [= <-]. cbn. split_and!; try done.
      rewrite addressOfMatric_registered. by rewrite decide_True.
    + intros Hlk. destruct (Hst a st Hlk) as (H1 & H2 & H3 & H4 & H5 & H6 & H7).
      split_and!; try done.
      rewrite addressOfMatric_registered. case_decide as Hmm; [|done].
      rewrite Hmm, Hfree in H7. congruence.
  - intros a d r Hlk. change (recordsOf (registered e user matric nm s) a)
      with (recordsOf s a) in Hlk.
    destruct (Hrec a d r Hlk) as (H1 & H2 & H3 & H4 & H5).
    rewrite studentAt_registered. case_decide as Ha; [subst a; congruence|done].
Qed.

Lemma RecordsInv_marked e s :
  RecordsInv s -> env_ok e ->
  isRegistered (studentAt s (msg_sender e)) = true ->
  RecordsInv (marked e s).
Proof.
  intros [Hadm Hst Hrec] [_ Hts] Hreg. split; [done|done|].
  intros a d r. rewrite recordsOf_marked.
  change (studentAt (marked e s) a) with (studentAt s a).
  case_decide as Ha; [|apply Hrec]. subst a.
  rewrite lookup_insert. case_decide as Hd; [|apply Hrec].
  subst d. by intros [= <-].
Qed.

Lemma RecordsInv_transact e c s :
  RecordsInv s -> env_ok e -> call_ok c -> RecordsInv (transact e c s).1.
Proof.
  intros HI He Hc. unfold transact. destruct c as [user matric nm| |]; simpl.
  - rewrite registerUser_unfold.
    destruct (msg_sender e =? admin s); simpl; [|done].
    destruct (user =? 0) eqn:Hu; simpl; [done|].
    destruct (0 <? Z.of_nat (String.length matric)) eqn:Hm; simpl; [|done].
    destruct (0 <? Z.of_nat (String.length nm)) eqn:Hn; simpl; [|done].
    destruct (isRegistered (studentAt s user)) eqn:Hreg; simpl; [done|].
    destruct (addressOfMatric s matric =? 0) eqn:Hfree; simpl; [|done].
    destruct (count s <? max_uint256); simpl; [|done].
    apply RecordsInv_registered; try done.
    + by apply Z.eqb_neq.
    + intros ->. discriminate Hm.
    + intros ->. discriminate Hn.
    + by apply Z.eqb_eq.
  - rewrite markAttendance_unfold.
    destruct (isSystemActive s); simpl; [|done].
    destruct (isRegistered (studentAt s (msg_sender e))) eqn:Hreg; simpl; [|done].
    destruct (isPresent (recordAt s (msg_sender e) (dayIndex (block_timestamp e))));
      simpl; [done|].
    destruct (attendanceCountAt s (msg_sender e) <? max_uint256); simpl; [|done].
    by apply RecordsInv_marked.
  - rewrite toggleSystem_unfold.
    destruct (msg_sender e =? admin s); simpl; [|done].
    destruct HI. by split.
Qed.

Lemma reachable_RecordsInv s : reachable s -> RecordsInv s.
Proof.
  induction 1 as [e He | s e c Hs IH He Hc].
  - by apply RecordsInv_constructor.
  - by apply RecordsInv_transact.
Qed.

Lemma reaches_reachable s s' : reachable s -> reaches s s' -> reachable s'.
Proof.
  intros Hr. induction 1 as [|s' e c Hs IH He Hc]; [done|]. by apply reachable_transact.
Qed.

(** ** What a successful transaction tells about the storage before it *)

Lemma transact_register_inv e user matric nm s s1 logs :
  transact e (RegisterUser user matric nm) s = (s1, Success logs) ->
  msg_sender e = admin s /\ user <> 0 /\ matric <> "" /\ nm <> "" /\
  isRegistered (studentAt s user) = false /\ addressOfMatric s matric = 0 /\
  count s < max_uint256 /\
  s1 = registered e user matric nm s /\ logs = [UserRegistered user matric nm].
Proof.
  unfold transact, dispatch. rewrite registerUser_unfold.
  destruct (msg_sender e =? admin s) eqn:Hadm; cbn [negb]; [|discriminate].
  destruct (user =? 0) eqn:Hu; [discriminate|].
  destruct (0 <? Z.of_nat (String.length matric)) eqn:Hm; cbn [negb]; [|discriminate].
  destruct (0 <? Z.of_nat (String.length nm)) eqn:Hn; cbn [negb]; [|discriminate].
  destruct (isRegistered (studentAt s user)) eqn:Hreg; [discriminate|].
  destruct (addressOfMatric s matric =? 0) eqn:Hfree; cbn [negb]; [|discriminate].
  destruct (count s <? max_uint256) eqn:Hc; cbn [negb]; [|discriminate].
  intros [= <- <-]. split_and!; try done.
  - by apply Z.eqb_eq.
  - by apply Z.eqb_neq.
  - intros ->. discriminate Hm.
  - intros ->. discriminate Hn.
  - by apply Z.eqb_eq.
  - by apply Z.ltb_lt.
Qed.

Lemma transact_mark_inv e s s1 logs :
  transact e MarkAttendance s = (s1, Success logs) ->
  isSystemActive s = true /\
  isRegistered (studentAt s (msg_sender e)) = true /\
  verifyAttendance s (msg_sender e) (dayIndex (block_timestamp e)) = false /\
  attendanceCountAt s (msg_sender e) < max_uint256 /\
  s1 = marked e s /\
  logs = [AttendanceMarked (msg_sender e) (matricNumber (studentAt s (msg_sender e)))
            (dayIndex (block_timestamp e)) (block_timestamp e)].
Proof.
  unfold transact, dispatch, verifyAttendance. rewrite markAttendance_unfold.
  destruct (isSystemActive s); cbn [negb]; [|discriminate].
  destruct (isRegistered (studentAt s (msg_sender e))); cbn [negb]; [|discriminate].
  destruct (isPresent (recordAt s (msg_sender e) (dayIndex (block_timestamp e))));
    [discriminate|].
  destruct (attendanceCountAt s (msg_sender e) <? max_uint256) eqn:Hc; cbn [negb];
    [|discriminate].
  intros [= <- <-]. split_and!; try done. by apply Z.ltb_lt.
Qed.

Lemma transact_toggle_inv e s s1 logs :
  transact e ToggleSystem s = (s1, Success logs) ->
  msg_sender e = admin s /\
  s1 = set_isSystemActive (negb (isSystemActive s)) s /\
  logs = [SystemStateChanged (negb (isSystemActive s))].
Proof.
  unfold transact, dispatch. rewrite toggleSystem_unfold.
  destruct (msg_sender e =? admin s) eqn:Hadm; cbn [negb]; [|discriminate].
  intros [= <- <-]. split_and!; try done. by apply Z.eqb_eq.
Qed.

(** A transaction either reverts, leaving the storage, or is one of the
    three successful writes. *)
Lemma transact_cases e c s :
  (transact e c s).1 = s \/
  (exists user matric nm logs,
      c = RegisterUser user matric nm /\
      transact e c s = (registered e user matric nm s, Success logs)) \/
  (exists logs, c = MarkAttendance /\ transact e c s = (marked e s, Success logs)) \/
  (exists logs, c = ToggleSystem /\
      transact e c s = (set_isSystemActive (negb (isSystemActive s)) s, Success logs)).
Proof.
  destruct (transact e c s) as [s1 [logs|f]] eqn:Htx.
  - destruct c as [user matric nm| |].
    + right; left. exists user, matric, nm, logs.
      apply transact_register_inv in Htx as (_&_&_&_&_&_&_&->&_). done.
    + right; right; left. exists logs.
      apply transact_mark_inv in Htx as (_&_&_&_&->&_). done.
    + right; right; right. exists logs.
      apply transact_toggle_inv in Htx as (_&->&_). done.
  - left. unfold transact in Htx. destruct (dispatch e c s) as [f'|[[[] s'] l]]; by inversion Htx.
Qed.

(** ** One step never removes or rewrites what was recorded *)

Lemma transact_step_facts e c s :
  admin (transact e c s).1 = admin s /\
  (forall a, isRegistered (studentAt s a) = true ->
             studentAt (transact e c s).1 a = studentAt s a) /\
  (forall m, addressOfMatric s m <> 0 ->
             addressOfMatric (transact e c s).1 m = addressOfMatric s m) /\
  (forall a d, isPresent (recordAt s a d) = true ->
               recordAt (transact e c s).1 a d = recordAt s a d) /\
  (forall a, attendanceCountAt s a <= attendanceCountAt (transact e c s).1 a) /\
  registeredUsers s `prefix_of` registeredUsers (transact e c s).1 /\
  count s <= count (transact e c s).1.
Proof.
  destruct (transact_cases e c s) as [H|[(user&matric&nm&logs&->&H)|[(logs&->&H)|(logs&->&H)]]].
  - rewrite H. split_and!; try done; lia.
  - pose proof (transact_register_inv _ _ _ _ _ _ _ H) as (_&_&_&_&Hfresh&Hfree&_).
    rewrite H. cbn [fst]. split_and!.
    + done.
    + intros a Ha. rewrite studentAt_registered. case_decide; [subst; congruence|done].
    + intros m Hm. rewrite addressOfMatric_registered. case_decide; [subst; congruence|done].
    + done.
    + intros a. change (attendanceCountAt (registered e user matric nm s) a)
        with (attendanceCountAt s a). lia.
    + cbn. by apply prefix_app_r.
    + cbn. lia.
  - pose proof (transact_mark_inv _ _ _ _ H) as (_&_&Habs&_).
    rewrite H. cbn [fst]. split_and!.
    + done.
    + done.
    + done.
    + intros a d Hp. rewrite recordAt_marked. case_decide as Hk; [|done].
      destruct Hk as [-> ->]. unfold verifyAttendance in Habs. congruence.
    + intros a. rewrite attendanceCountAt_marked. case_decide; lia.
    + done.
    + cbn. lia.
  - rewrite H. cbn [fst]. split_and!; try done; cbn; lia.
Qed.

Lemma reaches_facts s s' :
  reaches s s' ->
  admin s' = admin s /\
  (forall a, isRegistered (studentAt s a) = true -> studentAt s' a = studentAt s a) /\
  (forall m, addressOfMatric s m <> 0 -> addressOfMatric s' m = addressOfMatric s m) /\
  (forall a d, isPresent (recordAt s a d) = true -> recordAt s' a d = recordAt s a d) /\
  (forall a, attendanceCountAt s a <= attendanceCountAt s' a) /\
  registeredUsers s `prefix_of` registeredUsers s' /\
  count s <= count s'.
Proof.
  induction 1 as [|s' e c Hs (I1&I2&I3&I4&I5&I6&I7) He Hc].
  - split_and!; try done; lia.
  - destruct (transact_step_facts e c s') as (T1&T2&T3&T4&T5&T6&T7). split_and!.
    + congruence.
    + intros a Ha. rewrite T2; [by apply I2|]. by rewrite I2.
    + intros m Hm. rewrite T3; [by apply I3|]. by rewrite I3.
    + intros a d Hp. rewrite T4; [by apply I4|]. by rewrite I4.
    + intros a. specialize (I5 a). specialize (T5 a). lia.
    + by etrans.
    + lia.
Qed.

Lemma reaches_ledger1_ledger2 : reaches ledger1 ledger2.
Proof. apply (reaches_transact ledger1 ledger1); [apply reaches_refl | range_ok | range_ok]. Defined.

Lemma reaches_ledger1_ledger3 : reaches ledger1 ledger3.
Proof.
  apply (reaches_transact ledger1 ledger2); [exact reaches_ledger1_ledger2 | range_ok | range_ok].
Defined.

Lemma reaches_ledger0_ledger3 : reaches ledger0 ledger3.
Proof.
  apply (reaches_transact ledger0 ledger2); [|range_ok|range_ok].
  apply (reaches_transact ledger0 ledger1); [|range_ok|range_ok].
  apply (reaches_transact ledger0 ledger0); [apply reaches_refl|range_ok|range_ok].
Defined.

(** ** Registration: argument checks, duplicates, read-back *)

(** The owner's [registerUser] call checks its arguments in the order
    identity, matric number, name: a zero identity is rejected with
    "Invalid address", otherwise an empty matric number with "Invalid matric
    number", otherwise an empty name with "Invalid name"; the storage is left
    as it was. *)
Theorem registerUser_rejects_invalid_arguments
    (s : Storage) (e : Env) (user : Z) (matric nm : string) :
  msg_sender e = admin s ->
  (user = 0 ->
   transact e (RegisterUser user matric nm) s = (s, Reverted (Revert "Invalid address"))) /\
  (user <> 0 -> matric = "" ->
   transact e (RegisterUser user matric nm) s
     = (s, Reverted (Revert "Invalid matric number"))) /\
  (user <> 0 -> matric <> "" -> nm = "" ->
   transact e (RegisterUser user matric nm) s = (s, Reverted (Revert "Invalid name"))).
Proof.
  intros Hadm. apply Z.eqb_eq in Hadm. unfold transact, dispatch.
  rewrite registerUser_unfold, Hadm. cbn [negb]. split_and!.
  - intros ->. done.
  - intros Hu ->. apply Z.eqb_neq in Hu. by rewrite Hu.
  - intros Hu Hm ->. apply Z.eqb_neq in Hu. rewrite Hu.
    destruct matric; [done|]. done.
Qed.

Lemma registerUser_rejects_invalid_arguments_witness :
  transact (mkEnv 1 1700000500) (RegisterUser 0 "CSC002" "Bob") ledger1
    = (ledger1, Reverted (Revert "Invalid address")) /\
  transact (mkEnv 1 1700000500) (RegisterUser bob "" "Bob") ledger1
    = (ledger1, Reverted (Revert "Invalid matric number")) /\
  transact (mkEnv 1 1700000500) (RegisterUser bob "CSC002" "") ledger1
    = (ledger1, Reverted (Revert "Invalid name")).
Proof.
  split; [|split].
  - apply (registerUser_rejects_invalid_arguments ledger1 (mkEnv 1 1700000500) 0 "CSC002" "Bob");
      reflexivity.
  - apply (registerUser_rejects_invalid_arguments ledger1 (mkEnv 1 1700000500) bob "" "Bob");
      [reflexivity|discriminate|reflexivity].
  - apply (registerUser_rejects_invalid_arguments ledger1 (mkEnv 1 1700000500) bob "CSC002" "");
      [reflexivity|discriminate|discriminate|reflexivity].
Defined.

Lemma nonempty_length (str : string) : str <> "" -> (0 <? Z.of_nat (String.length str)) = true.
Proof. destruct str; [done|]. intros _. apply Z.ltb_lt. cbn. lia. Qed.

(** Once a registration has succeeded, in every storage reached afterwards
    the owner's attempt to register the same identity again is rejected with
    "User already registered", and the attempt to register another, not yet
    registered identity under the same matric number is rejected with
    "Matric number already registered". *)
Theorem register_duplicate_rejected
    (s s1 s2 : Storage) (e e2 : Env) (user user2 : Z) (matric nm matric2 nm2 : string)
    (logs : list Event) :
  transact e (RegisterUser user matric nm) s = (s1, Success logs) ->
  reaches s1 s2 ->
  msg_sender e2 = admin s2 -> user2 <> 0 -> matric2 <> "" -> nm2 <> "" ->
  (user2 = user ->
   transact e2 (RegisterUser user2 matric2 nm2) s2
     = (s2, Reverted (Revert "User already registered"))) /\
  (isRegistered (studentAt s2 user2) = false -> matric2 = matric ->
   transact e2 (RegisterUser user2 matric2 nm2) s2
     = (s2, Reverted (Revert "Matric number already registered"))).
Proof.
  intros Htx Hs2 Hadm Hu Hm Hn.
  apply transact_register_inv in Htx as (_&Hnz&_&_&_&_&_&->&_).
  destruct (reaches_facts _ _ Hs2) as (_&K2&K3&_).
  assert (Hreg : isRegistered (studentAt s2 user) = true).
  { rewrite K2; rewrite studentAt_registered, decide_True; done. }
  assert (Hbound : addressOfMatric s2 matric = user).
  { rewrite K3; rewrite addressOfMatric_registered, decide_True; done. }
  apply Z.eqb_eq in Hadm. apply Z.eqb_neq in Hu.
  unfold transact, dispatch. rewrite registerUser_unfold, Hadm, Hu.
  rewrite (nonempty_length _ Hm), (nonempty_length _ Hn). cbn [negb]. split.
  - intros ->. by rewrite Hreg.
  - intros -> ->. rewrite Hbound. apply Z.eqb_neq in Hnz. by rewrite Hnz.
Qed.

Lemma register_duplicate_rejected_witness :
  transact (mkEnv 1 1700090000) (RegisterUser alice "CSC009" "Alicia") ledger3
    = (ledger3, Reverted (Revert "User already registered")) /\
  transact (mkEnv 1 1700090000) (RegisterUser bob "CSC001" "Bob") ledger3
    = (ledger3, Reverted (Revert "Matric number already registered")).
Proof.
  assert (Htx : transact (mkEnv 1 1700000100) (RegisterUser alice "CSC001" "Alice") ledger0
                = (ledger1, Success [UserRegistered alice "CSC001" "Alice"])) by reflexivity.
  split.
  - refine (proj1 (register_duplicate_rejected _ _ ledger3 _ (mkEnv 1 1700090000) _ alice
                     _ _ "CSC009" "Alicia" _ Htx reaches_ledger1_ledger3 eq_refl _ _ _) eq_refl);
      discriminate.
  - refine (proj2 (register_duplicate_rejected _ _ ledger3 _ (mkEnv 1 1700090000) _ bob
                     _ _ "CSC001" "Bob" _ Htx reaches_ledger1_ledger3 eq_refl _ _ _)
                  eq_refl eq_refl);
      discriminate.
Defined.

(** A successful registration of [user] under [matric] and [nm] at time
    [block.timestamp] can be read back, then and in every storage reached
    afterwards: by identity as [(matric, nm, true, block.timestamp)], by matric
    number as the identity and as [(user, nm, true, block.timestamp)]; [user]
    is the last entry of the registered list right after the call and stays
    in the list. *)
Theorem register_then_lookup
    (s s1 s2 : Storage) (e : Env) (user : Z) (matric nm : string) (logs : list Event) :
  transact e (RegisterUser user matric nm) s = (s1, Success logs) ->
  reaches s1 s2 ->
  last (getRegisteredUsers s1) = Some user /\
  user ∈ getRegisteredUsers s2 /\
  getStudentByAddress s2 user = (matric, nm, true, block_timestamp e) /\
  getStudentAddressByMatric s2 matric = inr user /\
  getStudentByMatric s2 matric = inr (user, nm, true, block_timestamp e).
Proof.
  intros Htx Hs2.
  apply transact_register_inv in Htx as (_&Hnz&_&_&_&_&_&->&_).
  destruct (reaches_facts _ _ Hs2) as (_&K2&K3&_&_&K6&_).
  assert (Hst : studentAt s2 user = mkStudent matric nm true (block_timestamp e)).
  { rewrite K2; rewrite studentAt_registered, decide_True; done. }
  assert (Hbound : addressOfMatric s2 matric = user).
  { rewrite K3; rewrite addressOfMatric_registered, decide_True; done. }
  assert (Hnzb : negb (user =? 0) = true) by (apply negb_true_iff; by apply Z.eqb_neq).
  split_and!.
  - cbn. apply last_snoc.
  - unfold getRegisteredUsers. destruct K6 as [k ->]. cbn.
    rewrite !elem_of_app, list_elem_of_singleton. tauto.
  - unfold getStudentByAddress. by rewrite Hst.
  - unfold getStudentAddressByMatric. by rewrite Hbound, Hnzb.
  - unfold getStudentByMatric. by rewrite Hbound, Hnzb, Hst.
Qed.

Lemma register_then_lookup_witness :
  getStudentByAddress ledger3 alice = ("CSC001", "Alice", true, 1700000100) /\
  getStudentAddressByMatric ledger3 "CSC001" = inr alice.
Proof.
  assert (Htx : transact (mkEnv 1 1700000100) (RegisterUser alice "CSC001" "Alice") ledger0
                = (ledger1, Success [UserRegistered alice "CSC001" "Alice"])) by reflexivity.
  destruct (register_then_lookup _ _ ledger3 _ _ _ _ _ Htx reaches_ledger1_ledger3)
    as (_ & _ & H1 & H2 & _).
  split; [exact H1 | exact H2].
Defined.

(** ** Nothing recorded is ever rewritten *)

(** A student record is written once: for a registered identity, what
    [getStudentByAddress] returns is the same in every storage reached
    afterwards; in reachable storage a matric number that is bound stays
    bound to the same identity, with the same [getStudentByMatric] result. *)
Theorem student_record_permanent (s s' : Storage) :
  reachable s -> reaches s s' ->
  (forall a, isRegistered (studentAt s a) = true ->
             getStudentByAddress s' a = getStudentByAddress s a) /\
  (forall m a, getStudentAddressByMatric s m = inr a ->
               getStudentAddressByMatric s' m = inr a /\
               getStudentByMatric s' m = getStudentByMatric s m).
Proof.
  intros Hr Hs. destruct (reaches_facts _ _ Hs) as (_&K2&K3&_). split.
  - intros a Ha. unfold getStudentByAddress. by rewrite K2.
  - intros m a. unfold getStudentAddressByMatric, getStudentByMatric.
    destruct (addressOfMatric s m =? 0) eqn:Hz; cbn [negb]; [discriminate|].
    intros [= <-]. apply Z.eqb_neq in Hz. rewrite (K3 m Hz).
    destruct (inv_matric s (reachable_Inv s Hr) m Hz) as [_ Hreg].
    rewrite (K2 _ Hreg).
    apply Z.eqb_neq in Hz. rewrite Hz. done.
Qed.

Lemma student_record_permanent_witness :
  getStudentByAddress ledger3 alice = getStudentByAddress ledger1 alice /\
  getStudentAddressByMatric ledger3 "CSC001" = inr alice.
Proof.
  destruct (student_record_permanent ledger1 ledger3 reachable_ledger1 reaches_ledger1_ledger3)
    as [H1 H2].
  split; [apply H1; reflexivity|].
  apply (H2 "CSC001" alice). reflexivity.
Defined.

(** An attendance record is written once: where [verifyAttendance] is true,
    it stays true and [getAttendanceRecord] returns the same timestamp in
    every storage reached afterwards. *)
Theorem attendance_record_permanent (s s' : Storage) (a d : Z) :
  reaches s s' ->
  verifyAttendance s a d = true ->
  verifyAttendance s' a d = true /\
  getAttendanceRecord s' a d = getAttendanceRecord s a d.
Proof.
  intros Hs Hp. destruct (reaches_facts _ _ Hs) as (_&_&_&K4&_).
  unfold verifyAttendance, getAttendanceRecord in *. by rewrite (K4 a d Hp).
Qed.

Lemma attendance_record_permanent_witness :
  verifyAttendance ledger3 alice 19675 = true /\
  getAttendanceRecord ledger3 alice 19675 = getAttendanceRecord ledger2 alice 19675.
Proof.
  apply (attendance_record_permanent ledger2 ledger3 alice 19675); [|reflexivity].
  apply (reaches_transact ledger2 ledger2); [apply reaches_refl | range_ok | range_ok].
Defined.

(** Along any run of transactions the attendance counter of every identity
    and the registration counter never decrease, the registered list only
    grows at its end, and the owner stays the same. *)
Theorem counters_only_grow (s s' : Storage) :
  reaches s s' ->
  (forall a, getAttendanceCount s a <= getAttendanceCount s' a) /\
  count s <= count s' /\
  getRegisteredUsers s `prefix_of` getRegisteredUsers s' /\
  admin s' = admin s.
Proof.
  intros Hs. destruct (reaches_facts _ _ Hs) as (K1&_&_&_&K5&K6&K7). by split_and!.
Qed.

Lemma counters_only_grow_witness :
  getAttendanceCount ledger1 alice <= getAttendanceCount ledger3 alice /\
  admin ledger3 = admin ledger1.
Proof.
  destruct (counters_only_grow ledger1 ledger3 reaches_ledger1_ledger3) as (H1 & _ & _ & H4).
  split; [apply H1 | exact H4].
Defined.

(** The owner is the deployer, for the whole life of the contract: in every
    storage reached from the constructor's, [admin] is the constructor's
    [msg.sender], so the deployer's [toggleSystem] never fails and any other
    caller's always fails with "Only admin can call this function". *)
Theorem admin_is_deployer (e0 : Env) (s : Storage) :
  reaches (constructor e0) s ->
  admin s = msg_sender e0 /\
  (forall e, msg_sender e = msg_sender e0 ->
     exists logs, (transact e ToggleSystem s).2 = Success logs) /\
  (forall e, msg_sender e <> msg_sender e0 ->
     transact e ToggleSystem s = (s, Reverted Unauthorized)).
Proof.
  intros Hs. destruct (reaches_facts _ _ Hs) as (K1&_). cbn in K1. split_and!.
  - done.
  - intros e He. rewrite transact_toggle_admin by congruence. by eexists.
  - intros e He. unfold transact, dispatch. rewrite toggleSystem_unfold.
    rewrite <- K1 in He. apply Z.eqb_neq in He. by rewrite He.
Qed.

Lemma admin_is_deployer_witness :
  admin ledger3 = 1 /\
  transact (mkEnv alice 1700090000) ToggleSystem ledger3 = (ledger3, Reverted Unauthorized).
Proof.
  destruct (admin_is_deployer deployer ledger3 reaches_ledger0_ledger3) as (H1 & _ & H3).
  split; [exact H1|]. apply H3. discriminate.
Defined.

(** ** Identities that are not registered *)

Lemma RecordsInv_unregistered s a :
  RecordsInv s -> isRegistered (studentAt s a) = false ->
  students s !! a = None /\ recordsOf s a = ∅.
Proof.
  intros [_ Hst Hrec] Hreg. split.
  - destruct (students s !! a) as [st|] eqn:Hlk; [|done].
    destruct (Hst a st Hlk) as (H1&_). rewrite (studentAt_Some _ _ _ Hlk) in Hreg. congruence.
  - apply map_empty. intros d. destruct (recordsOf s a !! d) as [r|] eqn:Hlk; [|done].
    destruct (Hrec a d r Hlk) as (H1&_). congruence.
Qed.

(** In reachable storage the registered list holds exactly the registered
    identities, each once and none of them zero. *)
Theorem registered_list_exact (s : Storage) :
  reachable s ->
  NoDup (getRegisteredUsers s) /\
  (forall u, u ∈ getRegisteredUsers s <-> isRegistered (studentAt s u) = true) /\
  (forall u, u ∈ getRegisteredUsers s -> address_ok u /\ u <> 0).
Proof.
  intros Hr. pose proof (reachable_Inv s Hr) as HI.
  pose proof (reachable_RecordsInv s Hr) as HR. split_and!.
  - apply (inv_nodup s HI).
  - apply (inv_listed s HI).
  - intros u Hu. apply (inv_listed s HI) in Hu. apply studentAt_registered_Some in Hu.
    destruct (rinv_students s HR u _ Hu) as (_&_&_&_&H5&H6&_). done.
Qed.

Lemma registered_list_exact_witness :
  NoDup (getRegisteredUsers ledger3) /\ alice ∈ getRegisteredUsers ledger3.
Proof.
  destruct (registered_list_exact ledger3 reachable_ledger3) as (H1 & H2 & _).
  split; [exact H1|]. apply H2. reflexivity.
Defined.

(** In reachable storage, with the system active, a caller that is not in
    the registered list (the zero identity among them) cannot mark
    attendance: the call fails with "Student not registered". *)
Theorem unregistered_cannot_mark (s : Storage) (e : Env) :
  reachable s ->
  isSystemActive s = true ->
  msg_sender e ∉ getRegisteredUsers s ->
  transact e MarkAttendance s = (s, Reverted NotRegistered).
Proof.
  intros Hr Hact Hnot. pose proof (reachable_Inv s Hr) as HI.
  assert (Hreg : isRegistered (studentAt s (msg_sender e)) = false).
  { apply not_true_is_false. intros H. by apply (inv_listed s HI) in H. }
  unfold transact, dispatch. by rewrite markAttendance_unfold, Hact, Hreg.
Qed.

Lemma unregistered_cannot_mark_witness :
  transact (mkEnv bob 1700000250) MarkAttendance ledger2 = (ledger2, Reverted NotRegistered) /\
  transact (mkEnv 0 1700000250) MarkAttendance ledger2 = (ledger2, Reverted NotRegistered).
Proof.
  split.
  - apply (unregistered_cannot_mark ledger2 (mkEnv bob 1700000250) reachable_ledger2 eq_refl).
    intros H. change (bob ∈ [alice]) in H. apply list_elem_of_singleton in H. discriminate H.
  - apply (unregistered_cannot_mark ledger2 (mkEnv 0 1700000250) reachable_ledger2 eq_refl).
    intros H. change (0 ∈ [alice]) in H. apply list_elem_of_singleton in H. discriminate H.
Defined.

(** In reachable storage every read about an identity that is not
    registered returns the zero value: an all-empty student tuple, an
    attendance count of 0, and for every day-index no attendance and the
    record [(0, false)]. *)
Theorem unregistered_reads_zero (s : Storage) (a : Z) :
  reachable s ->
  isRegistered (studentAt s a) = false ->
  getStudentByAddress s a = ("", "", false, 0) /\
  getAttendanceCount s a = 0 /\
  (forall d, verifyAttendance s a d = false /\ getAttendanceRecord s a d = (0, false)).
Proof.
  intros Hr Hreg. pose proof (reachable_Inv s Hr) as HI.
  destruct (RecordsInv_unregistered s a (reachable_RecordsInv s Hr) Hreg) as [Hst Hrec].
  split_and!.
  - unfold getStudentByAddress, studentAt. by rewrite Hst.
  - unfold getAttendanceCount. rewrite (inv_attendance s HI).
    unfold numRecords, presentRecords. by rewrite Hrec, map_filter_empty, map_size_empty.
  - intros d. unfold verifyAttendance, getAttendanceRecord, recordAt.
    by rewrite Hrec, lookup_empty.
Qed.

Lemma unregistered_reads_zero_witness :
  getStudentByAddress ledger3 bob = ("", "", false, 0) /\ getAttendanceCount ledger3 bob = 0.
Proof.
  destruct (unregistered_reads_zero ledger3 bob reachable_ledger3 eq_refl) as (H1 & H2 & _).
  split; [exact H1 | exact H2].
Defined.

(** ** What a stored record says *)

(** In reachable storage an attendance record that is present belongs to a
    registered identity, carries a [uint256] timestamp that lies in the day
    it is filed under ([d * 86400 <= timestamp < (d + 1) * 86400]), and
    carries that identity's matric number. *)
Theorem attendance_record_wellformed (s : Storage) (a d : Z) :
  reachable s ->
  verifyAttendance s a d = true ->
  exists t,
    getAttendanceRecord s a d = (t, true) /\
    uint256_ok t /\ t / 86400 = d /\ d * 86400 <= t < (d + 1) * 86400 /\
    isRegistered (studentAt s a) = true /\
    recMatricNumber (recordAt s a d) = matricNumber (studentAt s a).
Proof.
  intros Hr Hp. pose proof (reachable_RecordsInv s Hr) as HR.
  unfold verifyAttendance, getAttendanceRecord, recordAt in *.
  destruct (recordsOf s a !! d) as [r|] eqn:Hlk; [|discriminate Hp]. cbn [default] in *.
  destruct (rinv_records s HR a d r Hlk) as (H1&H2&H3&H4&H5).
  exists (timestamp r). destruct (dayIndex_floor (timestamp r)) as [Hq Hfl].
  rewrite H4 in Hq, Hfl. rewrite Hp. split_and!; try done; lia.
Qed.

Lemma attendance_record_wellformed_witness :
  exists t, getAttendanceRecord ledger3 alice 19675 = (t, true) /\ t / 86400 = 19675.
Proof.
  destruct (attendance_record_wellformed ledger3 alice 19675 reachable_ledger3 eq_refl)
    as (t & H1 & _ & H3 & _).
  exists t. split; [exact H1 | exact H3].
Defined.

(** In reachable storage identities and matric numbers are in one-to-one
    correspondence: a registered identity has a non-empty matric number and
    a non-empty name, looking that matric number up gives the identity back,
    no two matric numbers resolve to the same identity and no two registered
    identities share a matric number. *)
Theorem matric_identity_one_to_one (s : Storage) :
  reachable s ->
  (forall a, isRegistered (studentAt s a) = true ->
     matricNumber (studentAt s a) <> "" /\ name (studentAt s a) <> "" /\
     getStudentAddressByMatric s (matricNumber (studentAt s a)) = inr a) /\
  (forall m1 m2 a, getStudentAddressByMatric s m1 = inr a ->
     getStudentAddressByMatric s m2 = inr a -> m1 = m2) /\
  (forall a b, isRegistered (studentAt s a) = true -> isRegistered (studentAt s b) = true ->
     matricNumber (studentAt s a) = matricNumber (studentAt s b) -> a = b).
Proof.
  intros Hr. pose proof (reachable_Inv s Hr) as HI.
  pose proof (reachable_RecordsInv s Hr) as HR.
  assert (Hback : forall a, isRegistered (studentAt s a) = true ->
            addressOfMatric s (matricNumber (studentAt s a)) = a /\ a <> 0).
  { intros a Ha. apply studentAt_registered_Some in Ha.
    destruct (rinv_students s HR a _ Ha) as (_&_&_&_&_&H6&H7). done. }
  split_and!.
  - intros a Ha. destruct (Hback a Ha) as [Hb Hnz].
    pose proof (studentAt_registered_Some _ _ Ha) as Hlk.
    destruct (rinv_students s HR a _ Hlk) as (_&H2&H3&_). split_and!; try done.
    unfold getStudentAddressByMatric. rewrite Hb. apply Z.eqb_neq in Hnz. by rewrite Hnz.
  - intros m1 m2 a. unfold getStudentAddressByMatric.
    destruct (addressOfMatric s m1 =? 0) eqn:Hz1; cbn [negb]; [discriminate|].
    destruct (addressOfMatric s m2 =? 0) eqn:Hz2; cbn [negb]; [discriminate|].
    intros [= H1] [= H2]. apply Z.eqb_neq in Hz1, Hz2.
    destruct (inv_matric s HI m1 Hz1) as [E1 _].
    destruct (inv_matric s HI m2 Hz2) as [E2 _]. congruence.
  - intros a b Ha Hb Heq. destruct (Hback a Ha) as [Ea _].
    destruct (Hback b Hb) as [Eb _]. congruence.
Qed.

Lemma matric_identity_one_to_one_witness :
  getStudentAddressByMatric ledger3 (matricNumber (studentAt ledger3 alice)) = inr alice.
Proof.
  destruct (matric_identity_one_to_one ledger3 reachable_ledger3) as (H1 & _ & _).
  apply (H1 alice). reflexivity.
Defined.

(** ** Events *)

Lemma transact_reverted e c s s1 f : transact e c s = (s1, Reverted f) -> s1 = s.
Proof.
  unfold transact. destruct (dispatch e c s) as [f'|[[[] s'] l]]; by intros [= <-].
Qed.

(** A successful transaction emits exactly one event, of the kind of the
    call: a registration its identity, matric number and name; a mark the
    caller, the caller's matric number, the day-index and the timestamp; a
    toggle the value the flag has after the call. *)
Theorem success_emits_one_event
    (e : Env) (c : Call) (s s1 : Storage) (logs : list Event) :
  transact e c s = (s1, Success logs) ->
  match c with
  | RegisterUser user matric nm => logs = [UserRegistered user matric nm]
  | MarkAttendance =>
      logs = [AttendanceMarked (msg_sender e)
                (matricNumber (studentAt s1 (msg_sender e)))
                (block_timestamp e / 86400) (block_timestamp e)]
  | ToggleSystem => logs = [SystemStateChanged (isSystemActive s1)]
  end.
Proof.
  intros Htx. destruct c as [user matric nm| |].
  - by apply transact_register_inv in Htx as (_&_&_&_&_&_&_&_&->).
  - apply transact_mark_inv in Htx as (_&_&_&_&->&->).
    destruct (dayIndex_floor (block_timestamp e)) as [-> _]. done.
  - by apply transact_toggle_inv in Htx as (_&->&->).
Qed.

Lemma success_emits_one_event_witness :
  [SystemStateChanged false] = [SystemStateChanged (isSystemActive ledger3)].
Proof.
  exact (success_emits_one_event (mkEnv 1 1700000300) ToggleSystem ledger2 ledger3
           [SystemStateChanged false] eq_refl).
Defined.

Lemma run_snoc deploy txs tx : run deploy (txs ++ [tx]) = step_log (run deploy txs) tx.
Proof. unfold run. by rewrite foldl_app. Qed.

(** The event log is a faithful audit trail: after any list of transactions
    run from deployment, the registered list is the list of identities of the
    [UserRegistered] events in order, the attendance counter of every
    identity is the number of its [AttendanceMarked] events, and the active
    flag is the value of the last [SystemStateChanged] event ([true] if there
    is none). *)
Theorem event_log_replays_storage (deploy : Env) (txs : list (Env * Call)) :
  getRegisteredUsers (run deploy txs).1 = registeredIn (run deploy txs).2 /\
  (forall a, getAttendanceCount (run deploy txs).1 a
             = Z.of_nat (marksIn a (run deploy txs).2)) /\
  isSystemActive (run deploy txs).1 = activeAfter (run deploy txs).2.
Proof.
  induction txs as [|[e c] txs (IH1 & IH2 & IH3)] using rev_ind; [done|].
  rewrite run_snoc. destruct (run deploy txs) as [s logs]. cbn [fst snd] in *.
  unfold step_log. cbn [fst snd].
  destruct (transact e c s) as [s1 [l|f]] eqn:Htx; cbn [fst snd].
  - unfold registeredIn, marksIn, activeAfter, getAttendanceCount in *.
    rewrite omap_app, foldl_app. setoid_rewrite filter_app. setoid_rewrite length_app.
    destruct c as [user matric nm| |].
    + apply transact_register_inv in Htx as (_&_&_&_&_&_&_&->&->). cbn.
      split_and!; [by rewrite <- IH1 | | done].
      intros a. rewrite Nat.add_0_r. apply IH2.
    + apply transact_mark_inv in Htx as (_&_&_&_&->&->).
      split_and!; [cbn; by rewrite app_nil_r | | done].
      intros a. rewrite attendanceCountAt_marked, IH2.
      rewrite filter_cons, filter_nil. cbn [isMarkOf].
      destruct (decide (a = msg_sender e)) as [->|Hne].
      * rewrite Z.eqb_refl. rewrite decide_True by done. cbn. lia.
      * assert (Hb : (msg_sender e =? a) = false) by (apply Z.eqb_neq; congruence).
        rewrite Hb. rewrite decide_False by done. cbn. lia.
    + apply transact_toggle_inv in Htx as (_&->&->). cbn.
      split_and!; [by rewrite app_nil_r | | done].
      intros a. rewrite Nat.add_0_r. apply IH2.
  - apply transact_reverted in Htx as ->. done.
Qed.

(** ** What a successful call leaves alone *)



(** A successful [registerUser] touches no attendance data, not the owner
    and not the flag; every other identity keeps its student tuple and every
    other matric number its lookup result. *)
Theorem register_changes_only_registrant
    (e : Env) (user : Z) (matric nm : string) (s s1 : Storage) (logs : list Event) :
  transact e (RegisterUser user matric nm) s = (s1, Success logs) ->
  (forall a, a <> user -> getStudentByAddress s1 a = getStudentByAddress s a) /\
  (forall m, m <> matric ->
     getStudentAddressByMatric s1 m = getStudentAddressByMatric s m) /\
  attendanceRecords s1 = attendanceRecords s /\
  attendanceCount s1 = attendanceCount s /\
  admin s1 = admin s /\ isSystemActive s1 = isSystemActive s.
Proof.
  intros Htx. apply transact_register_inv in Htx as (_&_&_&_&_&_&_&->&_).
  split_and!; try done.
  - intros a Ha. unfold getStudentByAddress. by rewrite studentAt_registered, decide_False.
  - intros m Hm. unfold getStudentAddressByMatric.
    by rewrite addressOfMatric_registered, decide_False.
Qed.

Lemma register_changes_only_registrant_witness :
  getStudentByAddress ledger1 bob = getStudentByAddress ledger0 bob /\
  attendanceCount ledger1 = attendanceCount ledger0.
Proof.
  destruct (register_changes_only_registrant (mkEnv 1 1700000100) alice "CSC001" "Alice"
              ledger0 ledger1 [UserRegistered alice "CSC001" "Alice"] eq_refl)
    as (H1 & _ & _ & H4 & _).
  split; [apply H1; discriminate | exact H4].
Defined.

(** ** Who can write what *)

(** An identity becomes registered only through a [registerUser] call for
    that identity sent by the owner. *)
Theorem student_created_only_by_owner (e : Env) (c : Call) (s : Storage) (a : Z) :
  isRegistered (studentAt s a) = false ->
  isRegistered (studentAt (transact e c s).1 a) = true ->
  msg_sender e = admin s /\ exists matric nm, c = RegisterUser a matric nm.
Proof.
  intros Hbefore Hafter.
  destruct (transact_cases e c s) as [H|[(user&matric&nm&logs&->&H)|[(logs&->&H)|(logs&->&H)]]].
  - rewrite H in Hafter. congruence.
  - pose proof (transact_register_inv _ _ _ _ _ _ _ H) as (Hadm&_).
    rewrite H in Hafter. cbn [fst] in Hafter. rewrite studentAt_registered in Hafter.
    case_decide as Ha; [|congruence]. subst a. split; [done|]. by exists matric, nm.
  - rewrite H in Hafter. cbn [fst] in Hafter.
    change (studentAt (marked e s) a) with (studentAt s a) in Hafter. congruence.
  - rewrite H in Hafter. cbn [fst] in Hafter.
    change (studentAt (set_isSystemActive (negb (isSystemActive s)) s) a)
      with (studentAt s a) in Hafter. congruence.
Qed.

Lemma student_created_only_by_owner_witness :
  1 = admin ledger0 /\ exists matric nm, RegisterUser alice "CSC001" "Alice"
                                          = RegisterUser alice matric nm.
Proof.
  exact (student_created_only_by_owner (mkEnv 1 1700000100)
           (RegisterUser alice "CSC001" "Alice") ledger0 alice eq_refl eq_refl).
Defined.

(** An attendance record of an identity appears only through that
    identity's own [markAttendance] call, made while the system is active
    and the identity registered, and it appears under the day-index of the
    call's timestamp. *)
Theorem attendance_created_only_by_self (e : Env) (c : Call) (s : Storage) (a d : Z) :
  verifyAttendance s a d = false ->
  verifyAttendance (transact e c s).1 a d = true ->
  c = MarkAttendance /\ msg_sender e = a /\ d = block_timestamp e / 86400 /\
  isSystemActive s = true /\ isRegistered (studentAt s a) = true.
Proof.
  intros Hbefore Hafter.
  destruct (transact_cases e c s) as [H|[(user&matric&nm&logs&->&H)|[(logs&->&H)|(logs&->&H)]]].
  - rewrite H in Hafter. congruence.
  - rewrite H in Hafter. cbn [fst] in Hafter.
    change (verifyAttendance (registered e user matric nm s) a d)
      with (verifyAttendance s a d) in Hafter. congruence.
  - pose proof (transact_mark_inv _ _ _ _ H) as (Hact&Hreg&_).
    rewrite H in Hafter. cbn [fst] in Hafter. unfold verifyAttendance in *.
    rewrite recordAt_marked in Hafter. case_decide as Hk; [|congruence].
    destruct Hk as [-> ->]. destruct (dayIndex_floor (block_timestamp e)) as [Hq _].
    done.
  - rewrite H in Hafter. cbn [fst] in Hafter.
    change (verifyAttendance (set_isSystemActive (negb (isSystemActive s)) s) a d)
      with (verifyAttendance s a d) in Hafter. congruence.
Qed.

Lemma attendance_created_only_by_self_witness :
  MarkAttendance = MarkAttendance /\ alice = alice /\ 19675 = 1700000200 / 86400 /\
  isSystemActive ledger1 = true /\ isRegistered (studentAt ledger1 alice) = true.
Proof.
  exact (attendance_created_only_by_self (mkEnv alice 1700000200) MarkAttendance
           ledger1 alice 19675 eq_refl eq_refl).
Defined.

(** ** Outcomes *)

(** In reachable storage a transaction never panics: it either succeeds or
    is reverted by one of the [require]s of the called function (its
    modifier included), with the storage left as it was.  The checked
    increments of the two counters cannot overflow. *)
Theorem reachable_never_panics (s : Storage) (e : Env) (c : Call) :
  reachable s ->
  (exists s1 logs, transact e c s = (s1, Success logs)) \/
  (exists reason, reason ∈ revertReasons c /\
                  transact e c s = (s, Reverted (Revert reason))).
Proof.
  intros Hr. pose proof (reachable_Inv s Hr) as HI.
  pose proof (Inv_count_below_max s HI) as Hc. apply Z.ltb_lt in Hc.
  unfold transact. destruct c as [user matric nm| |]; cbn [dispatch revertReasons].
  - rewrite registerUser_unfold, Hc. cbn [negb].
    repeat (split_guard;
            [right; eexists; split; [|reflexivity]; rewrite !elem_of_cons; tauto|]).
    left. by do 2 eexists.
  - rewrite markAttendance_unfold.
    pose proof (Inv_attendanceCount_below_max s (msg_sender e) HI) as Ha.
    apply Z.ltb_lt in Ha. rewrite Ha. cbn [negb].
    repeat (split_guard;
            [right; eexists; split; [|reflexivity]; rewrite !elem_of_cons; tauto|]).
    left. by do 2 eexists.
  - rewrite toggleSystem_unfold.
    split_guard; [right; eexists; split; [|reflexivity]; rewrite !elem_of_cons; tauto|].
    left. by do 2 eexists.
Qed.

Lemma reachable_never_panics_witness :
  (exists s1 logs, transact (mkEnv alice 1700000250) MarkAttendance ledger2
                   = (s1, Success logs)) \/
  (exists reason, reason ∈ revertReasons MarkAttendance /\
     transact (mkEnv alice 1700000250) MarkAttendance ledger2
     = (ledger2, Reverted (Revert reason))).
Proof.
  exact (reachable_never_panics ledger2 (mkEnv alice 1700000250) MarkAttendance
           reachable_ledger2).
Defined.

(** In reachable storage [markAttendance] succeeds exactly when the system
    is active, the caller is registered and the caller has no record for the
    day-index of the call's timestamp. *)
Theorem mark_succeeds_iff (s : Storage) (e : Env) :
  reachable s ->
  (exists s1 logs, transact e MarkAttendance s = (s1, Success logs)) <->
  (isSystemActive s = true /\
   isRegistered (studentAt s (msg_sender e)) = true /\
   verifyAttendance s (msg_sender e) (block_timestamp e / 86400) = false).
Proof.
  intros Hr. destruct (dayIndex_floor (block_timestamp e)) as [Hq _]. rewrite <- Hq. split.
  - intros (s1 & logs & Htx). by apply transact_mark_inv in Htx as (?&?&?&_).
  - intros (Hact & Hreg & Habs). do 2 eexists. apply transact_mark_success; try done.
    by apply Inv_attendanceCount_below_max, reachable_Inv.
Qed.

Lemma mark_succeeds_iff_witness :
  (exists s1 logs, transact (mkEnv alice 1700086600) MarkAttendance ledger2
                   = (s1, Success logs)) <->
  (isSystemActive ledger2 = true /\
   isRegistered (studentAt ledger2 alice) = true /\
   verifyAttendance ledger2 alice (1700086600 / 86400) = false).
Proof.
  exact (mark_succeeds_iff ledger2 (mkEnv alice 1700086600) reachable_ledger2).
Defined.

(** In reachable storage [registerUser] succeeds exactly when the caller is
    the owner, the identity is not zero, matric number and name are not
    empty, the identity is not registered and the matric number is not
    bound. *)
Theorem register_succeeds_iff
    (s : Storage) (e : Env) (user : Z) (matric nm : string) :
  reachable s ->
  (exists s1 logs, transact e (RegisterUser user matric nm) s = (s1, Success logs)) <->
  (msg_sender e = admin s /\ user <> 0 /\ matric <> "" /\ nm <> "" /\
   isRegistered (studentAt s user) = false /\
   getStudentAddressByMatric s matric = inl NotFound).
Proof.
  intros Hr. unfold getStudentAddressByMatric. split.
  - intros (s1 & logs & Htx).
    apply transact_register_inv in Htx as (?&?&?&?&?&Hfree&_).
    rewrite Hfree. by split_and!.
  - intros (Hadm & Hu & Hm & Hn & Hfresh & Hfree). do 2 eexists.
    apply transact_register_success; try done; [by apply reachable_Inv|].
    destruct (addressOfMatric s matric =? 0) eqn:Hz; [by apply Z.eqb_eq|discriminate Hfree].
Qed.

Lemma register_succeeds_iff_witness :
  (exists s1 logs, transact (mkEnv 1 1700000500) (RegisterUser bob "CSC002" "Bob") ledger2
                   = (s1, Success logs)) <->
  (1 = admin ledger2 /\ bob <> 0 /\ "CSC002" <> "" /\ "Bob" <> "" /\
   isRegistered (studentAt ledger2 bob) = false /\
   getStudentAddressByMatric ledger2 "CSC002" = inl NotFound).
Proof.
  exact (register_succeeds_iff ledger2 (mkEnv 1 1700000500) bob "CSC002" "Bob"
           reachable_ledger2).
Defined.

(** ** Value ranges *)

(** In reachable storage every stored number fits its Solidity type: the
    owner, every listed identity and every identity a matric number resolves
    to are 160-bit; the registration counter, every attendance counter, every
    registration date and every record timestamp are 256-bit.  The
    attendance counter of an identity is moreover at most the number of
    day-indices a 256-bit timestamp can have. *)
Theorem stored_values_in_range (s : Storage) :
  reachable s ->
  address_ok (admin s) /\
  uint256_ok (count s) /\
  (forall m, address_ok (addressOfMatric s m)) /\
  (forall a, uint256_ok (getAttendanceCount s a) /\ getAttendanceCount s a <= dayBound) /\
  (forall a, uint256_ok (registrationDate (studentAt s a))) /\
  (forall a d, uint256_ok (timestamp (recordAt s a d))).
Proof.
  intros Hr. pose proof (reachable_Inv s Hr) as HI.
  pose proof (reachable_RecordsInv s Hr) as HR.
  assert (Hzero : uint256_ok 0) by range_ok.
  assert (Hmax : max_uint256 < 2 ^ 256) by (unfold max_uint256; lia).
  split_and!.
  - apply (rinv_admin s HR).
  - pose proof (Inv_count_below_max s HI). rewrite (inv_count s HI) in *.
    unfold uint256_ok. lia.
  - intros m. destruct (decide (addressOfMatric s m = 0)) as [->|Hnz]; [range_ok|].
    destruct (inv_matric s HI m Hnz) as [_ Hreg]. apply studentAt_registered_Some in Hreg.
    by destruct (rinv_students s HR _ _ Hreg) as (_&_&_&_&H5&_).
  - intros a. unfold getAttendanceCount.
    pose proof (Inv_attendanceCount_below_max s a HI) as Hlt.
    assert (Hle : attendanceCountAt s a <= dayBound).
    { rewrite (inv_attendance s HI).
      assert (Hsz : (numRecords s a <= size (recordsOf s a))%nat).
      { unfold numRecords, presentRecords. apply map_subseteq_size, map_filter_subseteq. }
      pose proof (gmap_size_bounded (recordsOf s a) dayBound (inv_days s HI a)) as Hb.
      assert (0 < dayBound) by (apply Z.ltb_lt; vm_compute; reflexivity). lia. }
    split; [|done]. rewrite (inv_attendance s HI) in *. unfold uint256_ok. lia.
  - intros a. unfold studentAt. destruct (students s !! a) as [st|] eqn:Hlk; [|done].
    by destruct (rinv_students s HR _ _ Hlk) as (_&_&_&H4&_).
  - intros a d. unfold recordAt. destruct (recordsOf s a !! d) as [r|] eqn:Hlk; [|done].
    by destruct (rinv_records s HR _ _ _ Hlk) as (_&_&H3&_).
Qed.

Lemma stored_values_in_range_witness :
  address_ok (admin ledger3) /\ uint256_ok (getAttendanceCount ledger3 alice).
Proof.
  destruct (stored_values_in_range ledger3 reachable_ledger3) as (H1 & _ & _ & H4 & _).
  split; [exact H1 | apply H4].
Defined.

(** ** The client service *)



(** ** Day windows and record counts *)

(** After a successful mark at timestamp [t], with [d = t / 86400], every
    further call of the same identity whose timestamp lies in the window
    [d * 86400 <= t' < (d + 1) * 86400] is rejected with "Attendance already
    marked for today": the lock-out lasts to the end of that 86400-second
    day and is counted from multiples of 86400, not from the time of the
    mark. *)
Theorem mark_locks_rest_of_day (e e' : Env) (s s1 : Storage) (logs : list Event) :
  transact e MarkAttendance s = (s1, Success logs) ->
  msg_sender e' = msg_sender e ->
  (block_timestamp e / 86400) * 86400 <= block_timestamp e'
    < (block_timestamp e / 86400 + 1) * 86400 ->
  transact e' MarkAttendance s1 = (s1, Reverted AlreadyMarked).
Proof.
  intros Htx Hsender Hwin.
  apply transact_mark_inv in Htx as (Hact&Hreg&_&_&->&_).
  assert (Hday : dayIndex (block_timestamp e') = dayIndex (block_timestamp e)).
  { destruct (dayIndex_floor (block_timestamp e)) as [-> _].
    destruct (dayIndex_floor (block_timestamp e')) as [-> _].
    symmetry.
    apply Z.div_unique with (r := block_timestamp e' - block_timestamp e / 86400 * 86400); lia. }
  apply transact_mark_already; rewrite ?Hsender; try done.
  unfold verifyAttendance. rewrite recordAt_marked, decide_True; [done|]. by rewrite Hday.
Qed.

Lemma mark_locks_rest_of_day_witness :
  transact (mkEnv alice 1700006399) MarkAttendance ledger2 = (ledger2, Reverted AlreadyMarked).
Proof.
  apply (mark_locks_rest_of_day (mkEnv alice 1700000200) (mkEnv alice 1700006399)
           ledger1 ledger2 [AttendanceMarked alice "CSC001" 19675 1700000200]);
    [reflexivity | reflexivity | split; [discriminate | reflexivity]].
Defined.

(** In reachable storage the registration counter is the number of student
    records held in the [students] mapping. *)
Theorem count_is_number_of_student_records (s : Storage) :
  reachable s -> count s = Z.of_nat (size (students s)).
Proof.
  intros Hr. pose proof (reachable_Inv s Hr) as HI.
  pose proof (reachable_RecordsInv s Hr) as HR.
  rewrite (inv_count s HI). f_equal.
  rewrite <- (size_dom (D := gset Z)), <- (size_list_to_set (C := gset Z) _ (inv_nodup s HI)).
  f_equal. apply set_eq. intros x. rewrite elem_of_list_to_set, elem_of_dom.
  rewrite (inv_listed s HI). split.
  - intros Hx. apply studentAt_registered_Some in Hx. by eexists.
  - intros [st Hst]. rewrite (studentAt_Some _ _ _ Hst).
    by destruct (rinv_students s HR _ _ Hst) as (H1&_).
Qed.

Lemma count_is_number_of_student_records_witness :
  count ledger3 = Z.of_nat (size (students ledger3)).
Proof. exact (count_is_number_of_student_records ledger3 reachable_ledger3). Defined.
